(** * RULSIF: relative unconstrained least-squares importance fitting

    A shallow embedding of [rulsif.py]: the alpha-relative density-ratio
    estimator, the Pearson divergence estimator built on it, and the
    orchestrator [RULSIF] with its cross-validated model selection.

    Python floats are IEEE binary64 numbers, embedded as Rocq's primitive
    floats; Python's [None] is [None] of an option type; a raised exception is
    the [Raise] branch of [result]; a two-dimensional numpy array is its shape
    together with its indexing function. *)

From Stdlib Require Import String List ZArith Lia Bool Floats Permutation.
Import ListNotations.

Local Open Scope float_scope.
#[local] Set Warnings "-inexact-float".

(** ** Exceptions and fallible computations *)

(** The exceptions the module can raise.  [Exception] carries the message of
    an explicit [raise Exception(msg)]; the others are raised by the
    interpreter or by numpy on ill-typed or ill-shaped operands. *)
Inductive exn : Type :=
| Exception (msg : string)
| AttributeError
| TypeError
| ValueError
| ZeroDivisionError
| IndexError
| LinAlgError.

Inductive result (A : Type) : Type :=
| Ok (a : A)
| Raise (e : exn).

Arguments Ok {A} a.
Arguments Raise {A} e.

Definition bind {A B : Type} (c : result A) (k : A -> result B) : result B :=
  match c with
  | Ok a => k a
  | Raise e => Raise e
  end.

Declare Scope result_scope.
Delimit Scope result_scope with result.
Notation "x <- c ;; k" := (bind c (fun x => k))
  (at level 61, c at next level, right associativity) : result_scope.
Notation "' pat <- c ;; k" := (bind c (fun x => match x with pat => k end))
  (at level 61, pat pattern, c at next level, right associativity) : result_scope.

Definition is_Ok {A : Type} (c : result A) : bool :=
  match c with Ok _ => true | Raise _ => false end.

(** A Python float that may also be [None]. *)
Definition pyfloat : Type := option float.

(** [float(n)] for a Python int. *)
Definition float_of_Z (z : Z) : float :=
  match z with
  | Z0 => 0
  | Zpos _ => of_uint63 (Uint63.of_Z z)
  | Zneg p => - of_uint63 (Uint63.of_Z (Zpos p))
  end.

Definition float_of_nat (n : nat) : float := float_of_Z (Z.of_nat n).

(** ** numpy arrays *)

(** A two-dimensional array: its shape and its indexing function (read only
    inside the shape).  One-dimensional arrays are lists. *)
Record ndarray : Type := mkArray {
  shape0 : nat;
  shape1 : nat;
  item : nat -> nat -> float
}.

(** The rows of an array, for display and comparison. *)
Definition to_rows (a : ndarray) : list (list float) :=
  map (fun i => map (fun j => item a i j) (seq 0 (shape1 a))) (seq 0 (shape0 a)).

(** An array literal [numpy.array([[..], ..])]. *)
Definition of_rows (rows : list (list float)) : ndarray :=
  mkArray (length rows)
          (match rows with [] => 0%nat | r :: _ => length r end)
          (fun i j => nth j (nth i rows []) 0).

(** Two arrays are equal as numpy arrays: same shape, same entries. *)
Definition array_eq (a b : ndarray) : Prop :=
  shape0 a = shape0 b /\ shape1 a = shape1 b /\
  forall i j, (i < shape0 a)%nat -> (j < shape1 a)%nat -> item a i j = item b i j.

(** [a.T] *)
Definition T (a : ndarray) : ndarray :=
  mkArray (shape1 a) (shape0 a) (fun i j => item a j i).

(** numpy's [add.reduce]: zero for an empty array, otherwise the entries
    added from the left (numpy adds long arrays pairwise; the order of the
    additions is not modelled beyond this). *)
Definition fsum (l : list float) : float :=
  match l with
  | [] => 0
  | x :: l' => fold_left add l' x
  end.

Module numpy.

(** [numpy.r_[lo:hi]] *)
Definition r_ (lo hi : nat) : list nat := seq lo (hi - lo).

Definition size {A : Type} (v : list A) : nat := length v.

(** [numpy.zeros((m, n))]; a negative dimension is refused. *)
Definition zeros (m : Z) (n : nat) : result ndarray :=
  if (m <? 0)%Z then Raise ValueError
  else Ok (mkArray (Z.to_nat m) n (fun _ _ => 0)).

(** [numpy.eye(n)] *)
Definition eye (n : Z) : result ndarray :=
  if (n <? 0)%Z then Raise ValueError
  else Ok (mkArray (Z.to_nat n) (Z.to_nat n)
                   (fun i j => if Nat.eqb i j then 1 else 0)).

(** Broadcasting of one axis: equal lengths, or one of them is 1. *)
Definition broadcast_dim (m n : nat) : result nat :=
  if Nat.eqb m n then Ok m
  else if Nat.eqb m 1 then Ok n
  else if Nat.eqb n 1 then Ok m
  else Raise ValueError.

(** The index read on an axis of length [dim] that may be stretched. *)
Definition stretch (dim i : nat) : nat := if Nat.eqb dim 1 then 0%nat else i.

(** Elementwise binary operation on two arrays, with broadcasting. *)
Definition broadcast (f : float -> float -> float) (a b : ndarray) : result ndarray :=
  (r0 <- broadcast_dim (shape0 a) (shape0 b) ;;
   r1 <- broadcast_dim (shape1 a) (shape1 b) ;;
   Ok (mkArray r0 r1
         (fun i j => f (item a (stretch (shape0 a) i) (stretch (shape1 a) j))
                       (item b (stretch (shape0 b) i) (stretch (shape1 b) j)))))%result.

Definition add : ndarray -> ndarray -> result ndarray := broadcast PrimFloat.add.
Definition sub : ndarray -> ndarray -> result ndarray := broadcast PrimFloat.sub.
Definition multiply : ndarray -> ndarray -> result ndarray := broadcast PrimFloat.mul.

(** [c * a] for a Python scalar [c]. *)
Definition scale (c : float) (a : ndarray) : ndarray :=
  mkArray (shape0 a) (shape1 a) (fun i j => c * item a i j).

(** [numpy.dot(a, b)] of two matrices. *)
Definition dot (a b : ndarray) : result ndarray :=
  if Nat.eqb (shape1 a) (shape0 b)
  then Ok (mkArray (shape0 a) (shape1 b)
             (fun i j => fold_left (fun acc k => acc + item a i k * item b k j)
                                   (seq 0 (shape1 a)) 0))
  else Raise ValueError.

(** [numpy.dot(a, v)] of a matrix and a vector. *)
Definition dot_vec (a : ndarray) (v : list float) : result (list float) :=
  if Nat.eqb (shape1 a) (length v)
  then Ok (map (fun i => fold_left (fun acc k => acc + item a i k * nth k v 0)
                                   (seq 0 (shape1 a)) 0)
               (seq 0 (shape0 a)))
  else Raise ValueError.

(** [numpy.mean(v)] of a one-dimensional array; [nan] when it is empty. *)
Definition mean (v : list float) : float := fsum v / float_of_nat (length v).

(** [numpy.mean(a, 1)]: the mean of every row. *)
Definition mean_axis1 (a : ndarray) : list float :=
  map (fun i => mean (map (fun j => item a i j) (seq 0 (shape1 a)))) (seq 0 (shape0 a)).

(** [numpy.mean(a, 0)]: the mean of every column. *)
Definition mean_axis0 (a : ndarray) : list float :=
  map (fun j => mean (map (fun i => item a i j) (seq 0 (shape0 a)))) (seq 0 (shape1 a)).

(** [numpy.tile(a, (r0, r1))] *)
Definition tile (a : ndarray) (r0 r1 : nat) : ndarray :=
  mkArray (shape0 a * r0) (shape1 a * r1)
          (fun i j => item a (i mod shape0 a) (j mod shape1 a)).

(** [numpy.tril(a)]: the entries on and below the diagonal, zero above. *)
Definition tril (a : ndarray) : ndarray :=
  mkArray (shape0 a) (shape1 a) (fun i j => if Nat.leb j i then item a i j else 0).

(** [numpy.c_[a, b]]: the columns of [a] followed by those of [b]. *)
Definition c_ (a b : ndarray) : result ndarray :=
  if Nat.eqb (shape0 a) (shape0 b)
  then Ok (mkArray (shape0 a) (shape1 a + shape1 b)
             (fun i j => if Nat.ltb j (shape1 a) then item a i j
                         else item b i (j - shape1 a)))
  else Raise ValueError.

(** [a.reshape(n, 1, order="F")]: the columns of [a] one after the other;
    refused when [a] does not have [n] entries. *)
Definition reshape_F (a : ndarray) (n : nat) : result (list float) :=
  if Nat.eqb (shape0 a * shape1 a) n
  then Ok (flat_map (fun j => map (fun i => item a i j) (seq 0 (shape0 a)))
                    (seq 0 (shape1 a)))
  else Raise ValueError.

(** [a[:, idxs]]: the columns of [a] at the given positions. *)
Definition take_columns (a : ndarray) (idxs : list nat) : result ndarray :=
  if forallb (fun k => Nat.ltb k (shape1 a)) idxs
  then Ok (mkArray (shape0 a) (length idxs) (fun i j => item a i (nth j idxs 0%nat)))
  else Raise IndexError.

(** [v[mask]] for a boolean mask as long as [v]. *)
Fixpoint select {A : Type} (v : list A) (mask : list bool) : list A :=
  match v, mask with
  | x :: v', b :: mask' => if b then x :: select v' mask' else select v' mask'
  | _, _ => []
  end.

(** Insertion into a sorted list, and the sort [numpy.median] starts with. *)
Fixpoint insert (x : float) (l : list float) : list float :=
  match l with
  | [] => [x]
  | y :: l' => if x <=? y then x :: l else y :: insert x l'
  end.

Definition sort (l : list float) : list float := fold_right insert [] l.

(** [numpy.median(v)]: the middle element of the sorted array, the mean of
    the two middle ones for an even length, [nan] for an empty array. *)
Definition median (v : list float) : float :=
  let s := sort v in
  let n := length s in
  match n with
  | O => nan
  | _ => if Nat.even n
         then mean [nth (n / 2 - 1) s nan; nth (n / 2) s nan]
         else nth (n / 2) s nan
  end.

(** [v.argmin()]: numpy scans from the left and moves to an entry only when
    that entry is not [>=] the current minimum; a [nan] is minimal and stops
    the scan. *)
Fixpoint argmin_scan (mp : float) (best i : nat) (l : list float) : nat :=
  match l with
  | [] => best
  | x :: l' =>
      if mp <=? x then argmin_scan mp best (S i) l'
      else if is_nan x then i
      else argmin_scan x i (S i) l'
  end.

Definition argmin (v : list float) : result nat :=
  match v with
  | [] => Raise ValueError
  | x :: l => Ok (if is_nan x then 0%nat else argmin_scan x 0 1 l)
  end.

(** [v.min()]: the reduction by [minimum], which keeps its left operand
    when that is a [nan] or is [<=] the right one. *)
Definition minimum (a b : float) : float :=
  if is_nan a || (a <=? b) then a else b.

Definition min (v : list float) : result float :=
  match v with
  | [] => Raise ValueError
  | x :: l => Ok (fold_left minimum l x)
  end.

(** [numpy.lambdaCandidates]: the module numpy has no attribute of this
    name, so the attribute lookup raises. *)
Definition lambdaCandidates : result (list float) := Raise AttributeError.

End numpy.

(** ** Collaborators outside the module

    [kernels.GaussianKernel], [scipy.linalg.solve] and numpy's pseudo-random
    generator are used by the module and defined elsewhere.  They are taken
    as parameters: the kernel evaluator and the solver may raise, and
    [numpy.random.permutation(n)] returns a permutation of [range(n)] and
    advances the process-wide generator. *)
Class Externals : Type := {
  RandomState : Type;
  random_seed : Z -> RandomState;
  random_permutation : nat -> RandomState -> list nat * RandomState;
  random_permutation_spec :
    forall n s, Permutation (fst (random_permutation n s)) (seq 0 n);
  (** [GaussianKernel(sigma).apply(samples, centers)] *)
  GaussianKernel_apply : pyfloat -> ndarray -> ndarray -> result ndarray;
  (** [linalg.solve(A, b)] *)
  linalg_solve : ndarray -> list float -> result (list float)
}.

(** [a / n] for a Python float [a] and a Python int [n]. *)
Definition float_div_int (a : float) (n : nat) : result float :=
  match n with
  | O => Raise ZeroDivisionError
  | _ => Ok (a / float_of_nat n)
  end.

(** [v ** 2] elementwise. *)
Definition square (v : list float) : list float := map (fun x => x * x) v.

(** ** AlphaRelativeDensityRatioEstimator *)
Module AlphaRelativeDensityRatioEstimator.

Record t : Type := new {
  alphaConstraint : float;
  sigmaWidth : pyfloat;
  lambdaRegularizer : pyfloat;
  kernelBasis : option Z
}.

Definition H_hat (alpha : float) (KernelMatrix_refSamples KernelMatrix_testSamples : ndarray)
  : result ndarray :=
  (let N_ref := shape1 KernelMatrix_refSamples in
   let N_test := shape1 KernelMatrix_testSamples in
   c_ref <- float_div_int alpha N_ref ;;
   G_ref <- numpy.dot KernelMatrix_refSamples (T KernelMatrix_refSamples) ;;
   c_test <- float_div_int (1.0 - alpha) N_test ;;
   G_test <- numpy.dot KernelMatrix_testSamples (T KernelMatrix_testSamples) ;;
   numpy.add (numpy.scale c_ref G_ref) (numpy.scale c_test G_test))%result.

Definition h_hat (KernelMatrix_refSamples : ndarray) : list float :=
  numpy.mean_axis1 KernelMatrix_refSamples.

Definition J_of_theta (alpha : float) (g_Xref_theta g_Xtest_theta : list float) : float :=
  (alpha / 2.0) * numpy.mean (square g_Xref_theta)
  + ((1 - alpha) / 2.0) * numpy.mean (square g_Xtest_theta)
  - numpy.mean g_Xref_theta.

Definition g_of_X_theta (KernelMatrix_samples : ndarray) (theta_hat : list float)
  : result (list float) :=
  numpy.dot_vec (T KernelMatrix_samples) theta_hat.

Section WithExternals.
Context {ext : Externals}.

Definition theta_hat (H_hat : ndarray) (h_hat : list float)
           (lambdaRegularizer : pyfloat) (kernelBasis : option Z)
  : result (list float) :=
  (I <- match kernelBasis with
        | Some n => numpy.eye n
        | None => Raise TypeError
        end ;;
   lambdaI <- match lambdaRegularizer with
              | Some lam => Ok (numpy.scale lam I)
              | None => Raise TypeError
              end ;;
   A <- numpy.add H_hat lambdaI ;;
   linalg_solve A h_hat)%result.

Definition apply (self : t) (referenceSamples testSamples gaussianCenters : ndarray)
  : result (list float * list float) :=
  (K_ref0 <- GaussianKernel_apply (sigmaWidth self) referenceSamples gaussianCenters ;;
   let K_ref := T K_ref0 in
   K_test0 <- GaussianKernel_apply (sigmaWidth self) testSamples gaussianCenters ;;
   let K_test := T K_test0 in
   H <- H_hat (alphaConstraint self) K_ref K_test ;;
   let h := h_hat K_ref in
   theta <- theta_hat H h (lambdaRegularizer self) (kernelBasis self) ;;
   r_alpha_ref <- g_of_X_theta K_ref theta ;;
   r_alpha_test <- g_of_X_theta K_test theta ;;
   Ok (r_alpha_ref, r_alpha_test))%result.

End WithExternals.

End AlphaRelativeDensityRatioEstimator.

(** ** PearsonRelativeDivergenceEstimator *)
Module PearsonRelativeDivergenceEstimator.

Record t : Type := new {
  alphaConstraint : float;
  sigmaWidth : pyfloat;
  lambdaRegularizer : pyfloat;
  kernelBasis : option Z
}.

Section WithExternals.
Context {ext : Externals}.

Definition apply (self : t) (referenceSamples testSamples gaussianCenters : ndarray)
  : result (float * list float) :=
  (let densityRatioEstimator :=
     AlphaRelativeDensityRatioEstimator.new (alphaConstraint self) (sigmaWidth self)
                                            (lambdaRegularizer self) (kernelBasis self) in
   '(r_alpha_Xref, r_alpha_Xtest) <-
     AlphaRelativeDensityRatioEstimator.apply densityRatioEstimator
       referenceSamples testSamples gaussianCenters ;;
   let PE_divergence :=
     numpy.mean r_alpha_Xref
     - (0.5 * (alphaConstraint self * numpy.mean (square r_alpha_Xref)
               + (1.0 - alphaConstraint self) * numpy.mean (square r_alpha_Xtest)))
     - 0.5 in
   Ok (PE_divergence, r_alpha_Xtest))%result.

End WithExternals.

End PearsonRelativeDivergenceEstimator.

(** ** Methods: state and exceptions

    A method runs on the world (the instance and the process-wide random
    generator) and either returns or raises; the world it leaves behind is
    kept in both cases, as a Python object keeps the attributes written
    before an exception. *)
Definition M (S A : Type) : Type := S -> result A * S.

Definition ret {S A : Type} (a : A) : M S A := fun s => (Ok a, s).

Definition mbind {S A B : Type} (c : M S A) (k : A -> M S B) : M S B :=
  fun s => match c s with
           | (Ok a, s') => k a s'
           | (Raise e, s') => (Raise e, s')
           end.

Definition lift {S A : Type} (c : result A) : M S A := fun s => (c, s).
Definition get {S : Type} : M S S := fun s => (Ok s, s).
Definition put {S : Type} (s : S) : M S unit := fun _ => (Ok tt, s).

Declare Scope method_scope.
Delimit Scope method_scope with method.
Notation "x <- c ;; k" := (mbind c (fun x => k))
  (at level 61, c at next level, right associativity) : method_scope.
Notation "c ;;; k" := (mbind c (fun _ => k))
  (at level 61, right associativity) : method_scope.

(** A [for] loop over a list whose body may raise: the loop variables are
    threaded through, and the first exception ends the loop. *)
Fixpoint for_ {A S : Type} (l : list A) (body : A -> S -> result S) (s : S) : result S :=
  match l with
  | [] => Ok s
  | x :: l' => bind (body x s) (for_ l' body)
  end.

(** [a[i, j] = v] and [a[i, :] = v]. *)
Definition set_item (a : ndarray) (i j : nat) (v : float) : ndarray :=
  mkArray (shape0 a) (shape1 a)
          (fun i' j' => if Nat.eqb i' i && Nat.eqb j' j then v else item a i' j').

Definition set_row (a : ndarray) (i : nat) (v : list float) : ndarray :=
  mkArray (shape0 a) (shape1 a)
          (fun i' j' => if Nat.eqb i' i then nth j' v 0 else item a i' j').

(** [v[i]] *)
Definition index {A : Type} (v : list A) (i : nat) : result A :=
  match nth_error v i with
  | Some x => Ok x
  | None => Raise IndexError
  end.

(** All the results of a list of fallible computations, or the first exception. *)
Fixpoint sequence {A : Type} (l : list (result A)) : result (list A) :=
  match l with
  | [] => Ok []
  | c :: l' => bind c (fun x => bind (sequence l') (fun xs => Ok (x :: xs)))
  end.

(** ** RULSIF *)
Module RULSIF.

Record t : Type := new {
  alphaConstraint : float;
  sigmaWidth : pyfloat;
  lambdaRegularizer : pyfloat;
  kernelBasis : option Z;
  crossFolds : Z;
  gaussianCenters : option ndarray
}.

(** [__init__], on settings that are already numbers: an option left out
    is [None]. *)
Definition init (alpha sigma lambda : pyfloat) (kernels folds : option Z) : t :=
  new (match alpha with Some a => a | None => 0.0 end)
      sigma
      lambda
      (Some (match kernels with Some k => k | None => 100%Z end))
      (match folds with Some k => k | None => 5%Z end)
      None.

Definition with_kernelBasis (k : option Z) (self : t) : t :=
  new (alphaConstraint self) (sigmaWidth self) (lambdaRegularizer self) k
      (crossFolds self) (gaussianCenters self).

Definition with_gaussianCenters (c : option ndarray) (self : t) : t :=
  new (alphaConstraint self) (sigmaWidth self) (lambdaRegularizer self)
      (kernelBasis self) (crossFolds self) c.

Definition with_model (sigma lambda : pyfloat) (self : t) : t :=
  new (alphaConstraint self) sigma lambda
      (kernelBasis self) (crossFolds self) (gaussianCenters self).

(** *** The median-distance heuristic *)

(** [sum(a, 1)]: the name [sum] is Python's builtin (numpy is imported
    under its own name only), so the rows of [a] are added one after the
    other to the start value 1.  Without a row the result is the int 1,
    which the next line cannot index. *)
Definition builtin_sum (a : ndarray) : result (list float) :=
  match shape0 a with
  | O => Raise TypeError
  | _ => Ok (map (fun j => fold_left add (map (fun i => item a i j) (seq 0 (shape0 a))) 1)
                 (seq 0 (shape1 a)))
  end.

(** [G[:, None]] and the two-dimensional reading of [G] that [numpy.tile]
    takes for a repetition pair. *)
Definition column (v : list float) : ndarray :=
  mkArray (length v) 1 (fun i _ => nth i v 0).

Definition row (v : list float) : ndarray :=
  mkArray 1 (length v) (fun _ j => nth j v 0).

(** The array [distances] as line 243 leaves it. *)
Definition distances0 (sampleSet : ndarray) : result ndarray :=
  (let numrows := shape0 sampleSet in
   let samples := sampleSet in
   squares <- numpy.multiply samples samples ;;
   G <- builtin_sum squares ;;
   let Q := numpy.tile (column G) 1 numrows in
   let R := numpy.tile (row G) numrows 1 in
   multiply <- numpy.dot samples (T samples) ;;
   QR <- numpy.add Q R ;;
   SS <- numpy.dot samples (T samples) ;;
   numpy.sub QR (numpy.scale 2 SS))%result.

(** The array [distances] as line 244 leaves it, before it is reshaped. *)
Definition distances (sampleSet : ndarray) : result ndarray :=
  (D <- distances0 sampleSet ;;
   numpy.sub D (numpy.tril D))%result.

(** The selection [distances[distances > 0]] of line 247. *)
Definition positive_distances (sampleSet : ndarray) : result (list float) :=
  (let numrows := shape0 sampleSet in
   D <- distances sampleSet ;;
   flat <- numpy.reshape_F D (numrows * numrows) ;;
   Ok (filter (fun d => 0 <? d) flat))%result.

Definition getMedianDistanceBetweenSamples (sampleSet : ndarray) : result float :=
  (selected <- positive_distances sampleSet ;;
   Ok (sqrt (0.5 * numpy.median selected)))%result.

Definition width_factors : list float := [0.6; 0.8; 1; 1.2; 1.4].

Definition computeGaussianWidthCandidates (referenceSamples testSamples : ndarray)
  : result (list float) :=
  (allSamples <- numpy.c_ referenceSamples testSamples ;;
   medianDistance <- getMedianDistanceBetweenSamples (T allSamples) ;;
   Ok (map (fun f => medianDistance * f) width_factors))%result.

(** [10.0 ** numpy.array([-3, -2, -1, 0, 1])] *)
Definition generateRegularizationParams : list float := [0.001; 0.01; 0.1; 1; 10].

(** *** Model selection (lines 374 to 381) *)
Definition selectOptimal (crossValidationScores : ndarray)
           (sigmaWidths lambdaCandidates : list float) : result (float * float) :=
  (crossValidationMinScores <- sequence (map numpy.min (to_rows crossValidationScores)) ;;
   crossValidationMinIdxForLambda <-
     sequence (map numpy.argmin (to_rows crossValidationScores)) ;;
   crossValidationMinIdxForSigma <- numpy.argmin crossValidationMinScores ;;
   optimalSigma <- index sigmaWidths crossValidationMinIdxForSigma ;;
   lambdaIdx <- index crossValidationMinIdxForLambda crossValidationMinIdxForSigma ;;
   optimalLambda <- index lambdaCandidates lambdaIdx ;;
   Ok (optimalSigma, optimalLambda))%result.

(** [floor(numpy.r_[0:n] * folds / n)]: the fold of every position. *)
Definition cv_split (n : nat) (folds : Z) : list Z :=
  map (fun k => (Z.of_nat k * folds / Z.of_nat n)%Z) (numpy.r_ 0 n).

(** [a[i, j] = v] inside a loop: the position has to exist. *)
Definition assign_item (a : ndarray) (i j : nat) (v : float) : result ndarray :=
  if Nat.ltb i (shape0 a) && Nat.ltb j (shape1 a)
  then Ok (set_item a i j v)
  else Raise IndexError.

Section WithExternals.
Context {ext : Externals}.

(** The instance and the process-wide generator. *)
Record world : Type := mkWorld {
  self : t;
  random : RandomState
}.

Definition modify_self (f : t -> t) : M world unit :=
  fun w => (Ok tt, mkWorld (f (self w)) (random w)).

(** [numpy.random.seed(n)] and [numpy.random.permutation(n)] *)
Definition seed (n : Z) : M world unit :=
  fun w => (Ok tt, mkWorld (self w) (random_seed n)).

Definition permutation (n : nat) : M world (list nat) :=
  fun w => let (p, r) := random_permutation n (random w) in
           (Ok p, mkWorld (self w) r).

(** *** Centers *)
Definition generateAllGaussianCenters (referenceSamples : ndarray) : M world ndarray :=
  (modify_self (with_kernelBasis (Some (Z.of_nat (shape1 referenceSamples)))) ;;;
   w <- get ;;
   match kernelBasis (self w) with
   | Some k => lift (numpy.take_columns referenceSamples (numpy.r_ 0 (Z.to_nat k)))
   | None => lift (Raise TypeError)
   end)%method.

(** [Matrix.show] only displays its argument. *)
Definition generateGaussianCenters (referenceSamples : ndarray) : M world ndarray :=
  generateAllGaussianCenters referenceSamples.

(** *** Cross-validation *)

(** The body of the loop over [lambdaIdx] (lines 353 to 368). *)
Definition lambda_body (alpha : float) (basis : option Z) (lambdaCandidates : list float)
           (K_ref K_test : ndarray) (referenceSamplesCVIdxs testSamplesCVIdxs : list nat)
           (referenceSamplesCVSplit testSamplesCVSplit : list Z)
           (H_h_KthFold : ndarray) (h_h_KthFold : list float)
           (foldIdx lambdaIdx : nat) (foldResult : ndarray) : result ndarray :=
  (lambdaCandidate <- index lambdaCandidates lambdaIdx ;;
   theta_h_KthFold <-
     AlphaRelativeDensityRatioEstimator.theta_hat H_h_KthFold h_h_KthFold
       (Some lambdaCandidate) basis ;;
   K_ref_testSet <-
     numpy.take_columns K_ref
       (numpy.select referenceSamplesCVIdxs
          (map (fun s => (s =? Z.of_nat foldIdx)%Z) referenceSamplesCVSplit)) ;;
   K_test_testSet <-
     numpy.take_columns K_test
       (numpy.select testSamplesCVIdxs
          (map (fun s => (s =? Z.of_nat foldIdx)%Z) testSamplesCVSplit)) ;;
   r_alpha_Xref <- AlphaRelativeDensityRatioEstimator.g_of_X_theta K_ref_testSet theta_h_KthFold ;;
   r_alpha_Xtest <- AlphaRelativeDensityRatioEstimator.g_of_X_theta K_test_testSet theta_h_KthFold ;;
   let J := AlphaRelativeDensityRatioEstimator.J_of_theta alpha r_alpha_Xref r_alpha_Xtest in
   assign_item foldResult foldIdx lambdaIdx J)%result.

(** The body of the loop over [foldIdx] (lines 345 to 370); the loop
    variables are [foldResult] and [crossValidationScores]. *)
Definition fold_body (alpha : float) (basis : option Z) (lambdaCandidates : list float)
           (K_ref K_test : ndarray) (referenceSamplesCVIdxs testSamplesCVIdxs : list nat)
           (referenceSamplesCVSplit testSamplesCVSplit : list Z)
           (sigmaIdx foldIdx : nat) (vars : ndarray * ndarray) : result (ndarray * ndarray) :=
  (let '(foldResult, crossValidationScores) := vars in
   K_ref_trainingSet <-
     numpy.take_columns K_ref
       (numpy.select referenceSamplesCVIdxs
          (map (fun s => negb (s =? Z.of_nat foldIdx)%Z) referenceSamplesCVSplit)) ;;
   K_test_trainingSet <-
     numpy.take_columns K_test
       (numpy.select testSamplesCVIdxs
          (map (fun s => negb (s =? Z.of_nat foldIdx)%Z) testSamplesCVSplit)) ;;
   H_h_KthFold <-
     AlphaRelativeDensityRatioEstimator.H_hat alpha K_ref_trainingSet K_test_trainingSet ;;
   let h_h_KthFold := AlphaRelativeDensityRatioEstimator.h_hat K_ref_trainingSet in
   candidates <- numpy.lambdaCandidates ;;
   foldResult' <-
     for_ (numpy.r_ 0 (numpy.size candidates))
          (lambda_body alpha basis lambdaCandidates K_ref K_test
             referenceSamplesCVIdxs testSamplesCVIdxs
             referenceSamplesCVSplit testSamplesCVSplit
             H_h_KthFold h_h_KthFold foldIdx)
          foldResult ;;
   Ok (foldResult',
       set_row crossValidationScores sigmaIdx (numpy.mean_axis0 foldResult')))%result.

(** The body of the loop over [sigmaIdx] (lines 336 to 370). *)
Definition sigma_body (alpha : float) (basis : option Z) (folds : Z)
           (sigmaWidths lambdaCandidates : list float)
           (referenceSamples testSamples gaussianCenters : ndarray)
           (referenceSamplesCVIdxs testSamplesCVIdxs : list nat)
           (referenceSamplesCVSplit testSamplesCVSplit : list Z)
           (sigmaIdx : nat) (crossValidationScores : ndarray) : result ndarray :=
  (sigma <- index sigmaWidths sigmaIdx ;;
   K_ref0 <- GaussianKernel_apply (Some sigma) referenceSamples gaussianCenters ;;
   let K_ref := T K_ref0 in
   K_test0 <- GaussianKernel_apply (Some sigma) testSamples gaussianCenters ;;
   let K_test := T K_test0 in
   foldResult <- numpy.zeros folds (numpy.size lambdaCandidates) ;;
   vars <- for_ (numpy.r_ 0 (Z.to_nat folds))
                (fold_body alpha basis lambdaCandidates K_ref K_test
                   referenceSamplesCVIdxs testSamplesCVIdxs
                   referenceSamplesCVSplit testSamplesCVSplit sigmaIdx)
                (foldResult, crossValidationScores) ;;
   Ok (snd vars))%result.

(** [Vector.show] and [Matrix.show] only display their argument. *)
Definition computeModelParameters (referenceSamples testSamples gaussianCenters : ndarray)
  : M world (float * float) :=
  (let refCols := shape1 referenceSamples in
   let testCols := shape1 testSamples in
   sigmaWidths <- lift (computeGaussianWidthCandidates referenceSamples testSamples) ;;
   let lambdaCandidates := generateRegularizationParams in
   crossValidationScores <-
     lift (numpy.zeros (Z.of_nat (numpy.size sigmaWidths)) (numpy.size lambdaCandidates)) ;;
   w <- get ;;
   referenceSamplesCVIdxs <- permutation refCols ;;
   let referenceSamplesCVSplit := cv_split refCols (crossFolds (self w)) in
   testSamplesCVIdxs <- permutation testCols ;;
   let testSamplesCVSplit := cv_split testCols (crossFolds (self w)) in
   crossValidationScores' <-
     lift (for_ (numpy.r_ 0 (numpy.size sigmaWidths))
                (sigma_body (alphaConstraint (self w)) (kernelBasis (self w))
                   (crossFolds (self w)) sigmaWidths lambdaCandidates
                   referenceSamples testSamples gaussianCenters
                   referenceSamplesCVIdxs testSamplesCVIdxs
                   referenceSamplesCVSplit testSamplesCVSplit)
                crossValidationScores) ;;
   lift (selectOptimal crossValidationScores' sigmaWidths lambdaCandidates))%method.

(** *** train and apply *)
Definition train (referenceSamples testSamples : ndarray) : M world unit :=
  (seed 0 ;;;
   centers <- generateGaussianCenters referenceSamples ;;
   modify_self (with_gaussianCenters (Some centers)) ;;;
   optimal <- computeModelParameters referenceSamples testSamples centers ;;
   modify_self (with_model (Some (fst optimal)) (Some (snd optimal))))%method.

(** [x == 0.0] for an attribute that may be [None]. *)
Definition is_zero (x : pyfloat) : bool :=
  match x with
  | Some v => v =? 0.0
  | None => false
  end.

(** [self.show] only prints. *)
Definition apply (referenceSamples testSamples : ndarray) : M world float :=
  (w <- get ;;
   match gaussianCenters (self w), kernelBasis (self w) with
   | Some centers, Some _ =>
       if is_zero (sigmaWidth (self w)) || is_zero (lambdaRegularizer (self w))
       then lift (Raise (Exception "Missing model selection parameters"))
       else
         let divergenceEstimator :=
           PearsonRelativeDivergenceEstimator.new
             (alphaConstraint (self w)) (sigmaWidth (self w))
             (lambdaRegularizer (self w)) (kernelBasis (self w)) in
         scores <- lift (PearsonRelativeDivergenceEstimator.apply divergenceEstimator
                           referenceSamples testSamples centers) ;;
         ret (fst scores)
   | _, _ => lift (Raise (Exception "Missing kernel basis function parameters"))
   end)%method.

End WithExternals.

End RULSIF.

(** ** Reference notions the properties are stated with *)

(** A square array equals its transpose. *)
Definition symmetric (a : ndarray) : Prop := array_eq a (T a).

(** numpy's order on floats when it looks for a minimum: a [nan] is below
    everything, other floats compare as usual. *)
Definition np_le (x y : float) : Prop := is_nan x = true \/ (x <=? y) = true.

(** [i] is the first position of a minimum of [v]. *)
Definition first_minimum (v : list float) (i : nat) : Prop :=
  (i < length v)%nat /\
  (forall j, (j < length v)%nat -> np_le (nth i v nan) (nth j v nan)) /\
  (forall j, (j < i)%nat -> ~ np_le (nth j v nan) (nth i v nan)).

(** The entries of one triangle of [D] (row index below column index),
    column after column, that are above zero. *)
Definition upper_positive (D : ndarray) : list float :=
  filter (fun d => 0 <? d)
         (flat_map (fun j => map (fun i => item D i j) (seq 0 (Nat.min j (shape0 D))))
                   (seq 0 (shape1 D))).

(** Following the specification's words: the Euclidean distance between two
    columns of the combined sample matrix, the median of the positive
    distances over all distinct unordered pairs, and the five candidates. *)
Definition euclidean_distance (a : ndarray) (i j : nat) : float :=
  sqrt (fsum (map (fun d => (item a d i - item a d j) * (item a d i - item a d j))
                  (seq 0 (shape0 a)))).

Definition unordered_pairs (n : nat) : list (nat * nat) :=
  flat_map (fun j => map (fun i => (i, j)) (seq 0 j)) (seq 0 n).

Definition spec_median_distance (allSamples : ndarray) : float :=
  numpy.median
    (filter (fun d => 0 <? d)
            (map (fun p => euclidean_distance allSamples (fst p) (snd p))
                 (unordered_pairs (shape1 allSamples)))).

Definition spec_width_candidates (referenceSamples testSamples : ndarray)
  : result (list float) :=
  (allSamples <- numpy.c_ referenceSamples testSamples ;;
   Ok (map (fun f => spec_median_distance allSamples * f) RULSIF.width_factors))%result.

(** Following the specification's words: the Pearson divergence score of two
    ratio vectors. *)
Definition spec_PE (alpha : float) (ratioAtReference ratioAtTest : list float) : float :=
  numpy.mean ratioAtReference
  - 0.5 * (alpha * numpy.mean (square ratioAtReference)
           + (1 - alpha) * numpy.mean (square ratioAtTest))
  - 0.5.

(** ** Concrete collaborators, to run the model on inputs *)

(** The first terms of the exponential series. *)
Definition exp_series (x : float) : float :=
  fold_right (fun k acc => 1 + x / float_of_nat k * acc) 1 (seq 1 24).

(** A Gaussian kernel evaluator with [exp_series] for the exponential: one
    row per sample, one column per center. *)
Definition series_kernel (sigma : pyfloat) (samples centers : ndarray) : result ndarray :=
  match sigma with
  | None => Raise TypeError
  | Some s =>
      if Nat.eqb (shape0 samples) (shape0 centers)
      then Ok (mkArray (shape1 samples) (shape1 centers)
                 (fun i l =>
                    exp_series
                      (- fsum (map (fun d => (item samples d i - item centers d l)
                                             * (item samples d i - item centers d l))
                                   (seq 0 (shape0 samples)))
                       / (2 * (s * s)))))
      else Raise ValueError
  end.

(** Gaussian elimination without pivoting on the rows [(coefficients, rhs)]. *)
Fixpoint eliminate (n : nat) (system : list (list float * float)) : result (list float) :=
  match n, system with
  | O, _ => Ok []
  | S n', (p :: r, b) :: rest =>
      if p =? 0 then Raise LinAlgError
      else
        let reduce (eq : list float * float) : list float * float :=
          match fst eq with
          | [] => ([], snd eq)
          | q :: qs => (map (fun xy => snd xy - q / p * fst xy) (combine r qs),
                        snd eq - q / p * b)
          end in
        bind (eliminate n' (map reduce rest))
             (fun xs => Ok ((b - fsum (map (fun xy => fst xy * snd xy) (combine r xs))) / p :: xs))
  | S _, _ => Raise LinAlgError
  end.

Definition elimination_solve (A : ndarray) (b : list float) : result (list float) :=
  if Nat.eqb (shape0 A) (shape1 A) && Nat.eqb (shape0 A) (length b)
  then eliminate (shape0 A) (combine (to_rows A) b)
  else Raise ValueError.

(** A small generator: its state is a counter, a permutation rotates
    [range(n)] by the counter and advances it. *)
Definition rotation (n : nat) (s : nat) : list nat * nat :=
  (skipn s (seq 0 n) ++ firstn s (seq 0 n), S s).

Lemma rotation_spec (n : nat) (s : nat) : Permutation (fst (rotation n s)) (seq 0 n).
Proof.
  unfold rotation, fst.
  rewrite <- (firstn_skipn s (seq 0 n)) at 3.
  apply Permutation_app_comm.
Qed.

Definition reference_externals : Externals :=
  {| RandomState := nat;
     random_seed := Z.to_nat;
     random_permutation := rotation;
     random_permutation_spec := rotation_spec;
     GaussianKernel_apply := series_kernel;
     linalg_solve := elimination_solve |}.

(** A float of the binary64 specification is not a number. *)
Definition SFnan (x : spec_float) : bool :=
  match x with S754_nan => true | _ => false end.

(** The array [a[:, numpy.r_[0:n]]] for the number [n] of columns of [a]. *)
Definition all_columns (a : ndarray) : ndarray :=
  mkArray (shape0 a) (length (seq 0 (shape1 a)))
          (fun i j => item a i (nth j (seq 0 (shape1 a)) 0%nat)).

(** The world in which [train] calls [computeModelParameters]: the generator
    reseeded, [kernelBasis] and [gaussianCenters] already written. *)
Definition trained_centers_world {ext : Externals} (referenceSamples : ndarray)
           (w : RULSIF.world) : RULSIF.world :=
  RULSIF.mkWorld
    (RULSIF.new (RULSIF.alphaConstraint (RULSIF.self w))
                (RULSIF.sigmaWidth (RULSIF.self w))
                (RULSIF.lambdaRegularizer (RULSIF.self w))
                (Some (Z.of_nat (shape1 referenceSamples)))
                (RULSIF.crossFolds (RULSIF.self w))
                (Some (all_columns referenceSamples)))
    (random_seed 0).

(** ** Concrete inputs *)

(** Four reference samples and four test samples on the line. *)
Definition samples_ref : ndarray := of_rows [[0; 1; 2; 3]].
Definition samples_test : ndarray := of_rows [[4; 5; 6; 7]].

(** A new instance with alpha 0.5 and nothing else configured, in a process
    whose generator is in some state. *)
Definition fresh_world : @RULSIF.world reference_externals :=
  @RULSIF.mkWorld reference_externals (RULSIF.init (Some 0.5) None None None None) 7%nat.

(** An instance configured with a kernel width only, whose centers are set. *)
Definition sigma_only_world : @RULSIF.world reference_externals :=
  @RULSIF.mkWorld reference_externals
                  (RULSIF.new 0.5 (Some 1) None (Some 4%Z) 5%Z (Some samples_ref)) 7%nat.

(** ** RULSIF: the other center-selection strategies *)

(** [v[0:k]] for a Python int [k]: the first [k] entries, and all but the
    last [-k] entries when [k] is negative. *)
Definition slice_to {A : Type} (v : list A) (k : Z) : list A :=
  if (k <? 0)%Z then firstn (length v - Z.to_nat (- k)) v
  else firstn (Z.to_nat k) v.

Section Strategies.
Context {ext : Externals}.

(** [min(self.kernelBasis, numcols)] needs a number: an instance built by
    [__init__] always has one; on [None] Python 3 raises a type error. *)
Definition generateRandomGaussianCenters (referenceSamples : ndarray) : M RULSIF.world ndarray :=
  (let numcols := shape1 referenceSamples in
   referenceSampleIdxs <- RULSIF.permutation numcols ;;
   w <- get ;;
   match RULSIF.kernelBasis (RULSIF.self w) with
   | None => lift (Raise TypeError)
   | Some k =>
       RULSIF.modify_self (RULSIF.with_kernelBasis (Some (Z.min k (Z.of_nat numcols)))) ;;;
       lift (numpy.take_columns referenceSamples
               (slice_to referenceSampleIdxs (Z.min k (Z.of_nat numcols))))
   end)%method.

Definition generateFirstNGaussianCenters (referenceSamples : ndarray) : M RULSIF.world ndarray :=
  (let numcols := shape1 referenceSamples in
   w <- get ;;
   match RULSIF.kernelBasis (RULSIF.self w) with
   | None => lift (Raise TypeError)
   | Some k =>
       RULSIF.modify_self (RULSIF.with_kernelBasis (Some (Z.min k (Z.of_nat numcols)))) ;;;
       lift (numpy.take_columns referenceSamples
               (numpy.r_ 0 (Z.to_nat (Z.min k (Z.of_nat numcols)))))
   end)%method.

End Strategies.

(** * Properties *)

(** ** Facts about binary64 floats *)
Section FloatFacts.

Lemma SFmul_comm (prec emax : Z) (x y : spec_float) :
  SFmul prec emax x y = SFmul prec emax y x.
Proof.
  destruct x as [sx|sx| |sx mx ex], y as [sy|sy| |sy my ey]; simpl;
    rewrite ?(xorb_comm sx sy); try reflexivity.
  now rewrite (Pos.mul_comm mx my), (Z.add_comm ex ey).
Qed.

Lemma float_mul_comm (x y : float) : x * y = y * x.
Proof. apply Prim2SF_inj. rewrite !mul_spec. apply SFmul_comm. Qed.

Lemma SFsub_diag_not_pos (prec emax : Z) (x : spec_float) :
  SFltb (S754_zero false) (SFsub prec emax x x) = false.
Proof.
  destruct x as [s|s| |s m e]; simpl; try reflexivity; try (destruct s; reflexivity).
  match goal with
  | |- context [binary_normalize _ _ ?d _ _] =>
      replace d with 0%Z by (symmetry; apply Z.sub_diag)
  end.
  reflexivity.
Qed.

Lemma float_sub_diag_not_pos (x : float) : (0 <? x - x) = false.
Proof. rewrite ltb_spec, sub_spec. apply SFsub_diag_not_pos. Qed.

Lemma float_sub_zero (x : float) : x - 0 = x.
Proof.
  apply Prim2SF_inj. rewrite sub_spec.
  change (Prim2SF 0) with (S754_zero false).
  unfold SF64sub. destruct (Prim2SF x) as [s|s| |s m e]; simpl; try reflexivity.
  destruct s; reflexivity.
Qed.

Lemma SFleb_not_nan (x y : spec_float) :
  SFleb x y = true -> SFnan x = false /\ SFnan y = false.
Proof. destruct x, y; simpl; auto; discriminate. Qed.

Lemma SFleb_finite_pos (m1 : positive) (e1 : Z) (m2 : positive) (e2 : Z) :
  SFleb (S754_finite false m1 e1) (S754_finite false m2 e2) = true
  <-> (e1 < e2 \/ (e1 = e2 /\ (m1 <= m2)%positive))%Z.
Proof.
  unfold SFleb, SFcompare.
  change (Pos.compare_cont Eq m1 m2) with (Pos.compare m1 m2).
  destruct (Z.compare_spec e1 e2); destruct (Pos.compare_spec m1 m2);
    split; intros; try lia; try discriminate; auto.
Qed.

Lemma SFleb_finite_neg (m1 : positive) (e1 : Z) (m2 : positive) (e2 : Z) :
  SFleb (S754_finite true m1 e1) (S754_finite true m2 e2) = true
  <-> (e2 < e1 \/ (e1 = e2 /\ (m2 <= m1)%positive))%Z.
Proof.
  unfold SFleb, SFcompare.
  change (Pos.compare_cont Eq m1 m2) with (Pos.compare m1 m2).
  destruct (Z.compare_spec e1 e2); destruct (Pos.compare_spec m1 m2);
    simpl; split; intros; try lia; try discriminate; auto.
Qed.

Lemma SFleb_trans (x y z : spec_float) :
  SFleb x y = true -> SFleb y z = true -> SFleb x z = true.
Proof.
  destruct x as [sx|sx| |sx mx ex], y as [sy|sy| |sy my ey], z as [sz|sz| |sz mz ez];
    try (simpl; intros; discriminate);
    try (destruct sx); try (destruct sy); try (destruct sz);
    try (simpl; intros; (reflexivity || discriminate || assumption)).
  - rewrite !SFleb_finite_neg. lia.
  - rewrite !SFleb_finite_pos. lia.
Qed.

Lemma SFleb_total (x y : spec_float) :
  SFnan x = false -> SFnan y = false -> SFleb x y = false -> SFleb y x = true.
Proof.
  destruct x as [sx|sx| |sx mx ex], y as [sy|sy| |sy my ey];
    try (simpl; intros; discriminate);
    try (destruct sx); try (destruct sy);
    try (simpl; intros; (reflexivity || discriminate || assumption)).
  - intros _ _ H. apply SFleb_finite_neg.
    assert (~ (ey < ex \/ ex = ey /\ (my <= mx)%positive)%Z)
      by (rewrite <- SFleb_finite_neg; congruence).
    lia.
  - intros _ _ H. apply SFleb_finite_pos.
    assert (~ (ex < ey \/ ex = ey /\ (mx <= my)%positive)%Z)
      by (rewrite <- SFleb_finite_pos; congruence).
    lia.
Qed.

Lemma is_nan_spec (x : float) : is_nan x = SFnan (Prim2SF x).
Proof.
  unfold is_nan. rewrite eqb_spec. unfold SFeqb.
  destruct (Prim2SF x) as [s|s| |s m e]; simpl;
    try (destruct s; reflexivity); try reflexivity.
  destruct s; rewrite Z.compare_refl;
    change (Pos.compare_cont Eq m m) with (Pos.compare m m);
    rewrite Pos.compare_refl; reflexivity.
Qed.

Lemma float_leb_trans (x y z : float) :
  (x <=? y) = true -> (y <=? z) = true -> (x <=? z) = true.
Proof. rewrite !leb_spec. apply SFleb_trans. Qed.

Lemma float_leb_total (x y : float) :
  is_nan x = false -> is_nan y = false -> (x <=? y) = false -> (y <=? x) = true.
Proof. rewrite !is_nan_spec, !leb_spec. apply SFleb_total. Qed.

Lemma float_leb_not_nan (x y : float) :
  (x <=? y) = true -> is_nan x = false /\ is_nan y = false.
Proof. rewrite !is_nan_spec, !leb_spec. apply SFleb_not_nan. Qed.

End FloatFacts.

(** ** Inversion of fallible computations *)

Lemma bind_Ok {A B : Type} (c : result A) (k : A -> result B) (b : B) :
  bind c k = Ok b -> exists a, c = Ok a /\ k a = Ok b.
Proof. destruct c as [a|e]; simpl; intros H; [eauto | discriminate]. Qed.

Ltac inv_bind H :=
  let a := fresh "a" in
  let Ha := fresh "Ha" in
  apply bind_Ok in H; destruct H as (a & Ha & H).

Lemma fold_left_ext_in {A B : Type} (f g : A -> B -> A) (l : list B) (a : A) :
  (forall x y, In y l -> f x y = g x y) -> fold_left f l a = fold_left g l a.
Proof.
  revert a. induction l as [|y l IH]; simpl; intros a H; [reflexivity|].
  rewrite H by auto. apply IH. intros; apply H; auto.
Qed.

(** ** The matrix H of the normal equation *)

Lemma dot_transpose_item (K : ndarray) (G : ndarray) (i j : nat) :
  numpy.dot K (T K) = Ok G -> item G i j = item G j i.
Proof.
  unfold numpy.dot. simpl. rewrite Nat.eqb_refl. intros H. injection H as <-. simpl.
  apply fold_left_ext_in. intros acc k _. now rewrite float_mul_comm.
Qed.

Lemma dot_transpose_shape (K : ndarray) (G : ndarray) :
  numpy.dot K (T K) = Ok G -> shape0 G = shape0 K /\ shape1 G = shape0 K.
Proof.
  unfold numpy.dot. simpl. rewrite Nat.eqb_refl. intros H. injection H as <-. auto.
Qed.

(** C9. Whenever [H_hat] returns a matrix for a mixing constant and two
    kernel matrices, that matrix is square and equal to its transpose, entry
    by entry. *)
Theorem H_hat_symmetric (alpha : float) (K_ref K_test H : ndarray) :
  AlphaRelativeDensityRatioEstimator.H_hat alpha K_ref K_test = Ok H ->
  symmetric H.
Proof.
  unfold AlphaRelativeDensityRatioEstimator.H_hat. intros E.
  inv_bind E. inv_bind E. inv_bind E. inv_bind E.
  rename a into c_ref, a0 into G_ref, a1 into c_test, a2 into G_test.
  destruct (dot_transpose_shape _ _ Ha0) as [Hr0 Hr1].
  destruct (dot_transpose_shape _ _ Ha2) as [Ht0 Ht1].
  unfold numpy.add, numpy.broadcast in E. simpl in E.
  rewrite Hr0, Hr1, Ht0, Ht1 in E.
  inv_bind E. inv_bind E. rewrite Ha3 in Ha4. injection Ha4 as <-.
  injection E as <-.
  unfold symmetric, array_eq. simpl. repeat split.
  intros i j _ _.
  rewrite (dot_transpose_item _ _ (numpy.stretch (shape0 K_ref) i)
             (numpy.stretch (shape0 K_ref) j) Ha0).
  rewrite (dot_transpose_item _ _ (numpy.stretch (shape0 K_test) i)
             (numpy.stretch (shape0 K_test) j) Ha2).
  reflexivity.
Qed.

Lemma H_hat_symmetric_witness :
  exists H,
    AlphaRelativeDensityRatioEstimator.H_hat 0.5 (of_rows [[1; 0.5]; [0.25; 1]])
                                             (of_rows [[1; 0.5; 0]; [0; 0.5; 1]]) = Ok H
    /\ symmetric H.
Proof.
  eexists. split.
  - vm_compute. reflexivity.
  - apply (H_hat_symmetric 0.5 (of_rows [[1; 0.5]; [0.25; 1]])
                           (of_rows [[1; 0.5; 0]; [0; 0.5; 1]])).
    vm_compute. reflexivity.
Defined.

(** ** The divergence score *)

(** C8. Whenever the density-ratio estimator built from the same
    hyperparameters returns the two ratio vectors, the divergence estimator
    returns the score
    [mean(r_ref) - 0.5 * (alpha * mean(r_ref^2) + (1 - alpha) * mean(r_test^2)) - 0.5]
    of those two vectors, together with the ratio vector at the test
    samples; it reads nothing but its arguments. *)
Theorem PearsonRelativeDivergence_formula (ext : Externals)
        (self : PearsonRelativeDivergenceEstimator.t)
        (referenceSamples testSamples gaussianCenters : ndarray)
        (ratioAtReference ratioAtTest : list float) :
  AlphaRelativeDensityRatioEstimator.apply
    (AlphaRelativeDensityRatioEstimator.new
       (PearsonRelativeDivergenceEstimator.alphaConstraint self)
       (PearsonRelativeDivergenceEstimator.sigmaWidth self)
       (PearsonRelativeDivergenceEstimator.lambdaRegularizer self)
       (PearsonRelativeDivergenceEstimator.kernelBasis self))
    referenceSamples testSamples gaussianCenters
  = Ok (ratioAtReference, ratioAtTest) ->
  PearsonRelativeDivergenceEstimator.apply self referenceSamples testSamples gaussianCenters
  = Ok (spec_PE (PearsonRelativeDivergenceEstimator.alphaConstraint self)
                ratioAtReference ratioAtTest,
        ratioAtTest).
Proof.
  intros E. unfold PearsonRelativeDivergenceEstimator.apply.
  rewrite E. reflexivity.
Qed.

Lemma PearsonRelativeDivergence_formula_witness :
  let self := PearsonRelativeDivergenceEstimator.new 0.5 (Some 1) (Some 0.1) (Some 2%Z) in
  let ref := of_rows [[0; 1]] in
  let test := of_rows [[2; 3; 4]] in
  exists ratioAtReference ratioAtTest,
    AlphaRelativeDensityRatioEstimator.apply (ext := reference_externals)
      (AlphaRelativeDensityRatioEstimator.new 0.5 (Some 1) (Some 0.1) (Some 2%Z))
      ref test ref = Ok (ratioAtReference, ratioAtTest)
    /\ PearsonRelativeDivergenceEstimator.apply (ext := reference_externals) self ref test ref
       = Ok (spec_PE 0.5 ratioAtReference ratioAtTest, ratioAtTest).
Proof.
  intros self ref test. eexists. eexists. split.
  - vm_compute. reflexivity.
  - apply (PearsonRelativeDivergence_formula reference_externals self ref test ref).
    vm_compute. reflexivity.
Defined.

(** ** Center selection *)

Lemma nth_seq_0 (n j : nat) : (j < n)%nat -> nth j (seq 0 n) 0%nat = j.
Proof. intros H. rewrite seq_nth by assumption. reflexivity. Qed.

Lemma forallb_ltb_seq (n : nat) : forallb (fun k => Nat.ltb k n) (seq 0 n) = true.
Proof.
  apply forallb_forall. intros k Hk. apply in_seq in Hk. apply Nat.ltb_lt. lia.
Qed.

Lemma take_all_columns (a : ndarray) :
  numpy.take_columns a (numpy.r_ 0 (shape1 a)) = Ok (all_columns a).
Proof.
  unfold numpy.take_columns, numpy.r_. rewrite Nat.sub_0_r, forallb_ltb_seq. reflexivity.
Qed.

Lemma all_columns_eq (a : ndarray) : array_eq (all_columns a) a.
Proof.
  unfold array_eq, all_columns. simpl. rewrite length_seq. repeat split.
  intros i j _ Hj. now rewrite nth_seq_0.
Qed.

Lemma generateGaussianCenters_run (ext : Externals) (referenceSamples : ndarray)
      (w : RULSIF.world) :
  RULSIF.generateGaussianCenters referenceSamples w
  = (Ok (all_columns referenceSamples),
     RULSIF.mkWorld
       (RULSIF.with_kernelBasis (Some (Z.of_nat (shape1 referenceSamples))) (RULSIF.self w))
       (RULSIF.random w)).
Proof.
  unfold RULSIF.generateGaussianCenters, RULSIF.generateAllGaussianCenters,
    mbind, RULSIF.modify_self, get, lift. simpl.
  rewrite Nat2Z.id, take_all_columns. reflexivity.
Qed.

(** C7. On every reference sample matrix and in every state of the instance
    and of the generator, the strategy [train] uses returns all the columns
    of the reference samples as centers and leaves [kernelBasis] equal to the
    number of reference samples, whatever [kernelBasis] was configured to;
    nothing else changes. *)
Theorem generateGaussianCenters_all (ext : Externals) (referenceSamples : ndarray)
        (w : RULSIF.world) :
  exists centers,
    RULSIF.generateGaussianCenters referenceSamples w
    = (Ok centers,
       RULSIF.mkWorld
         (RULSIF.new (RULSIF.alphaConstraint (RULSIF.self w))
                     (RULSIF.sigmaWidth (RULSIF.self w))
                     (RULSIF.lambdaRegularizer (RULSIF.self w))
                     (Some (Z.of_nat (shape1 referenceSamples)))
                     (RULSIF.crossFolds (RULSIF.self w))
                     (RULSIF.gaussianCenters (RULSIF.self w)))
         (RULSIF.random w))
    /\ array_eq centers referenceSamples.
Proof.
  exists (all_columns referenceSamples). split.
  - apply generateGaussianCenters_run.
  - apply all_columns_eq.
Qed.

(** ** Model selection: the first minimum *)

Lemma float_leb_refl (x : float) : is_nan x = false -> (x <=? x) = true.
Proof.
  intros H. destruct (x <=? x) eqn:E; [reflexivity|].
  rewrite <- E. now apply float_leb_total.
Qed.

Lemma argmin_scan_first_minimum (l prefix : list float) (mp : float) (best : nat) :
  is_nan mp = false ->
  (best < length prefix)%nat ->
  nth best prefix nan = mp ->
  (forall j, (j < length prefix)%nat ->
             is_nan (nth j prefix nan) = false /\ (mp <=? nth j prefix nan) = true) ->
  (forall j, (j < best)%nat -> (nth j prefix nan <=? mp) = false) ->
  first_minimum (prefix ++ l) (numpy.argmin_scan mp best (length prefix) l).
Proof.
  revert prefix mp best.
  induction l as [|x l IH]; intros prefix mp best Hmp Hbest Hnth Hall Hbefore.
  - simpl. rewrite app_nil_r. unfold first_minimum. rewrite Hnth. repeat split.
    + assumption.
    + intros j Hj. right. now apply Hall.
    + intros j Hj [Hn|Hl].
      * destruct (Hall j) as [Hn' _]; [lia|]. congruence.
      * rewrite Hbefore in Hl by assumption. discriminate.
  - simpl.
    assert (Happ : prefix ++ x :: l = (prefix ++ [x]) ++ l)
      by (rewrite <- app_assoc; reflexivity).
    assert (Hlen : length (prefix ++ [x]) = S (length prefix))
      by (rewrite length_app; simpl; lia).
    destruct (mp <=? x) eqn:Ele.
    + rewrite Happ, <- Hlen. apply IH; try assumption.
      * rewrite Hlen. lia.
      * rewrite app_nth1 by assumption. assumption.
      * intros j Hj. rewrite Hlen in Hj.
        destruct (Nat.eq_dec j (length prefix)) as [->|Hne].
        -- rewrite nth_middle. split; [|assumption].
           now destruct (float_leb_not_nan _ _ Ele).
        -- rewrite app_nth1 by lia. apply Hall. lia.
      * intros j Hj. rewrite app_nth1 by lia. now apply Hbefore.
    + destruct (is_nan x) eqn:Enan.
      * unfold first_minimum. rewrite nth_middle. repeat split.
        -- rewrite length_app. simpl. lia.
        -- intros j _. left. assumption.
        -- intros j Hj [Hn|Hl].
           ++ rewrite app_nth1 in Hn by assumption.
              destruct (Hall j Hj) as [Hn' _]. congruence.
           ++ destruct (float_leb_not_nan _ _ Hl) as [_ Hx]. congruence.
      * assert (Hxmp : (x <=? mp) = true) by now apply float_leb_total.
        rewrite Happ, <- Hlen. apply IH; try assumption.
        -- rewrite Hlen. lia.
        -- apply nth_middle.
        -- intros j Hj. rewrite Hlen in Hj.
           destruct (Nat.eq_dec j (length prefix)) as [->|Hne].
           ++ rewrite nth_middle. split; [assumption|]. now apply float_leb_refl.
           ++ rewrite app_nth1 by lia. destruct (Hall j) as [Hn Hl]; [lia|].
              split; [assumption|]. now apply (float_leb_trans x mp).
        -- intros j Hj. rewrite app_nth1 by lia.
           destruct (Hall j) as [Hn Hl]; [lia|].
           destruct (nth j prefix nan <=? x) eqn:E; [|reflexivity].
           rewrite (float_leb_trans mp _ x Hl E) in Ele. discriminate.
Qed.

Lemma argmin_first_minimum (v : list float) (i : nat) :
  numpy.argmin v = Ok i -> first_minimum v i.
Proof.
  destruct v as [|x l]; simpl; [discriminate|].
  intros H. injection H as <-.
  destruct (is_nan x) eqn:Enan.
  - unfold first_minimum. simpl. repeat split.
    + lia.
    + intros j _. left. assumption.
    + intros j Hj. lia.
  - change (x :: l) with ([x] ++ l). change 1%nat with (length [x]).
    apply argmin_scan_first_minimum; simpl; try assumption; try lia; try reflexivity.
    + intros j Hj. assert (j = 0)%nat as -> by lia. split; [assumption|].
      now apply float_leb_refl.
Qed.

Lemma fold_minimum_nan (l : list float) (a : float) :
  is_nan a = true -> fold_left numpy.minimum l a = a.
Proof.
  revert a. induction l as [|x l IH]; simpl; intros a H; [reflexivity|].
  unfold numpy.minimum at 2. rewrite H. simpl. now apply IH.
Qed.

Lemma fold_minimum_argmin_scan (l prefix : list float) (mp : float) (best : nat) :
  is_nan mp = false ->
  (best < length prefix)%nat ->
  nth best prefix nan = mp ->
  fold_left numpy.minimum l mp
  = nth (numpy.argmin_scan mp best (length prefix) l) (prefix ++ l) nan.
Proof.
  revert prefix mp best.
  induction l as [|x l IH]; intros prefix mp best Hmp Hbest Hnth.
  - simpl. rewrite app_nil_r. now symmetry.
  - simpl.
    assert (Happ : prefix ++ x :: l = (prefix ++ [x]) ++ l)
      by (rewrite <- app_assoc; reflexivity).
    assert (Hlen : length (prefix ++ [x]) = S (length prefix))
      by (rewrite length_app; simpl; lia).
    unfold numpy.minimum at 2. rewrite Hmp. simpl.
    destruct (mp <=? x) eqn:Ele.
    + rewrite Happ, <- Hlen. apply IH; try assumption.
      * rewrite Hlen. lia.
      * now rewrite app_nth1.
    + destruct (is_nan x) eqn:Enan.
      * rewrite nth_middle. now apply fold_minimum_nan.
      * rewrite Happ, <- Hlen. apply IH; try assumption.
        -- rewrite Hlen. lia.
        -- apply nth_middle.
Qed.

Lemma min_is_argmin (v : list float) (m : float) (i : nat) :
  numpy.min v = Ok m -> numpy.argmin v = Ok i -> m = nth i v nan.
Proof.
  destruct v as [|x l]; [discriminate|].
  unfold numpy.min, numpy.argmin. intros Hm Hi. injection Hm as <-. injection Hi as <-.
  destruct (is_nan x) eqn:Enan.
  - simpl. now apply fold_minimum_nan.
  - apply (fold_minimum_argmin_scan l [x] x 0); simpl; auto.
Qed.

Lemma sequence_map_Ok {A B : Type} (f : A -> result B) (l : list A) (ys : list B) :
  sequence (map f l) = Ok ys ->
  length ys = length l /\
  forall i x, nth_error l i = Some x ->
              exists y, nth_error ys i = Some y /\ f x = Ok y.
Proof.
  revert ys. induction l as [|a l IH]; simpl; intros ys H.
  - injection H as <-. split; [reflexivity|]. intros [|i] x Hx; discriminate.
  - apply bind_Ok in H. destruct H as (y & Hy & H).
    apply bind_Ok in H. destruct H as (ys' & Hys & H). injection H as <-.
    destruct (IH _ Hys) as [Hlen Hnth]. split; [simpl; congruence|].
    intros [|i] x Hx; simpl in *.
    + injection Hx as <-. eauto.
    + now apply Hnth.
Qed.

Lemma index_Ok {A : Type} (v : list A) (i : nat) (x : A) :
  index v i = Ok x -> nth_error v i = Some x.
Proof.
  unfold index. destruct (nth_error v i); intros H;
    [injection H as <-; reflexivity | discriminate].
Qed.

(** C6. Whenever the selection on a score matrix returns a pair, there are a
    row index and a column index such that: the minimum recorded for every
    row is the entry at the first position of a minimum of that row; the row
    index is the first position of a minimum among these row minima; the
    column index is the first position of a minimum in that row; and the pair
    returned is the sigma candidate at the row index with the lambda
    candidate at the column index.  Every tie goes to the lowest index. *)
Theorem selectOptimal_first_minimum (crossValidationScores : ndarray)
        (sigmaWidths lambdaCandidates : list float) (optimalSigma optimalLambda : float) :
  RULSIF.selectOptimal crossValidationScores sigmaWidths lambdaCandidates
  = Ok (optimalSigma, optimalLambda) ->
  exists (minScores : list float) (sigmaIdx lambdaIdx : nat) (row : list float),
    length minScores = shape0 crossValidationScores /\
    (forall i r, nth_error (to_rows crossValidationScores) i = Some r ->
                 exists k, first_minimum r k /\ nth_error minScores i = Some (nth k r nan)) /\
    first_minimum minScores sigmaIdx /\
    nth_error (to_rows crossValidationScores) sigmaIdx = Some row /\
    first_minimum row lambdaIdx /\
    nth_error sigmaWidths sigmaIdx = Some optimalSigma /\
    nth_error lambdaCandidates lambdaIdx = Some optimalLambda.
Proof.
  unfold RULSIF.selectOptimal. intros H.
  apply bind_Ok in H. destruct H as (minScores & Ha & H).
  apply bind_Ok in H. destruct H as (argmins & Ha0 & H).
  apply bind_Ok in H. destruct H as (sigmaIdx & Ha1 & H).
  apply bind_Ok in H. destruct H as (sigma & Ha2 & H).
  apply bind_Ok in H. destruct H as (lambdaIdx & Ha3 & H).
  apply bind_Ok in H. destruct H as (lam & Ha4 & H).
  injection H as <- <-.
  destruct (sequence_map_Ok _ _ _ Ha) as [Hlen Hmin].
  destruct (sequence_map_Ok _ _ _ Ha0) as [Hlen' Harg].
  apply index_Ok in Ha2, Ha3, Ha4.
  assert (Hrow : exists row, nth_error (to_rows crossValidationScores) sigmaIdx = Some row).
  { destruct (nth_error (to_rows crossValidationScores) sigmaIdx) eqn:E; [eauto|].
    apply nth_error_None in E. rewrite <- Hlen' in E.
    apply nth_error_None in E. congruence. }
  destruct Hrow as [row Hrow].
  exists minScores, sigmaIdx, lambdaIdx, row.
  split; [|split; [|split; [|split; [|split; [|split]]]]].
  - rewrite Hlen. unfold to_rows. now rewrite length_map, length_seq.
  - intros i r Hr. destruct (Hmin i r Hr) as (m & Hm & Hmr).
    destruct (Harg i r Hr) as (k & Hk & Hkr).
    exists k. split; [now apply argmin_first_minimum|].
    rewrite Hm. f_equal. now apply min_is_argmin.
  - now apply argmin_first_minimum.
  - assumption.
  - destruct (Harg sigmaIdx row Hrow) as (k & Hk & Hkr).
    rewrite Ha3 in Hk. injection Hk as <-. now apply argmin_first_minimum.
  - assumption.
  - assumption.
Qed.


Lemma selectOptimal_first_minimum_witness :
  let scores := of_rows [[3; 2; 2; 5; 4];
                         [1; 0.5; 3; 0.5; 2];
                         [2; 0.5; 0.5; 1; 1];
                         [4; 4; 4; 4; 4];
                         [0.5; 9; 9; 9; 9]] in
  let sigmaWidths := [0.6; 0.8; 1; 1.2; 1.4] in
  RULSIF.selectOptimal scores sigmaWidths RULSIF.generateRegularizationParams
  = Ok (0.8, 0.01)
  /\ exists (minScores : list float) (sigmaIdx lambdaIdx : nat) (row : list float),
      length minScores = shape0 scores /\
      (forall i r, nth_error (to_rows scores) i = Some r ->
                   exists k, first_minimum r k /\ nth_error minScores i = Some (nth k r nan)) /\
      first_minimum minScores sigmaIdx /\
      nth_error (to_rows scores) sigmaIdx = Some row /\
      first_minimum row lambdaIdx /\
      nth_error sigmaWidths sigmaIdx = Some 0.8 /\
      nth_error RULSIF.generateRegularizationParams lambdaIdx = Some 0.01.
Proof.
  intros scores sigmaWidths. split.
  - vm_compute. reflexivity.
  - apply (selectOptimal_first_minimum scores sigmaWidths
             RULSIF.generateRegularizationParams 0.8 0.01).
    vm_compute. reflexivity.
Defined.

(** ** Kernel width candidates *)

Lemma filter_flat_map {A B : Type} (p : B -> bool) (g : A -> list B) (l : list A) :
  filter p (flat_map g l) = flat_map (fun x => filter p (g x)) l.
Proof.
  induction l as [|x l IH]; simpl; [reflexivity|].
  now rewrite filter_app, IH.
Qed.

Lemma flat_map_ext_in {A B : Type} (f g : A -> list B) (l : list A) :
  (forall x, In x l -> f x = g x) -> flat_map f l = flat_map g l.
Proof.
  induction l as [|x l IH]; simpl; intros H; [reflexivity|].
  rewrite H by auto. f_equal. apply IH. intros; apply H; auto.
Qed.

Lemma filter_none {A : Type} (p : A -> bool) (l : list A) :
  (forall x, In x l -> p x = false) -> filter p l = [].
Proof.
  induction l as [|x l IH]; simpl; intros H; [reflexivity|].
  rewrite H by auto. apply IH. intros; apply H; auto.
Qed.

Lemma broadcast_dim_same (m : nat) : numpy.broadcast_dim m m = Ok m.
Proof. unfold numpy.broadcast_dim. now rewrite Nat.eqb_refl. Qed.

Lemma stretch_in_range (dim i : nat) : (i < dim)%nat -> numpy.stretch dim i = i.
Proof.
  unfold numpy.stretch. intros H. destruct (Nat.eqb_spec dim 1); [lia | reflexivity].
Qed.

(** One column of [D - tril(D)] after the test [> 0]: what is left are the
    positive entries of [D] above the diagonal. *)
Lemma column_above_diagonal (D : ndarray) (j m : nat) :
  filter (fun d => 0 <? d)
         (map (fun i => item D i j - (if Nat.leb j i then item D i j else 0)) (seq 0 m))
  = filter (fun d => 0 <? d) (map (fun i => item D i j) (seq 0 (Nat.min j m))).
Proof.
  assert (Hsplit : seq 0 m = seq 0 (Nat.min j m) ++ seq (Nat.min j m) (m - Nat.min j m)).
  { rewrite <- seq_app. f_equal. lia. }
  rewrite Hsplit at 1. rewrite map_app, filter_app.
  rewrite (filter_none _ (map _ (seq (Nat.min j m) _))).
  - rewrite app_nil_r. f_equal. apply map_ext_in. intros i Hi. apply in_seq in Hi.
    destruct (Nat.leb_spec j i); [lia|]. apply float_sub_zero.
  - intros d Hd. apply in_map_iff in Hd. destruct Hd as (i & <- & Hi).
    apply in_seq in Hi. destruct (Nat.leb_spec j i); [|lia].
    apply float_sub_diag_not_pos.
Qed.

Lemma positive_distances_upper (sampleSet : ndarray) (selected : list float) :
  RULSIF.positive_distances sampleSet = Ok selected ->
  exists D, RULSIF.distances0 sampleSet = Ok D /\ selected = upper_positive D.
Proof.
  unfold RULSIF.positive_distances, RULSIF.distances. intros H.
  apply bind_Ok in H. destruct H as (D' & HD' & H).
  apply bind_Ok in HD'. destruct HD' as (D & HD & HD').
  apply bind_Ok in H. destruct H as (flat & Hflat & H).
  injection H as <-. exists D. split; [assumption|].
  unfold numpy.sub, numpy.broadcast in HD'. simpl in HD'.
  rewrite !broadcast_dim_same in HD'. simpl in HD'. injection HD' as <-.
  unfold numpy.reshape_F in Hflat. simpl in Hflat.
  destruct (Nat.eqb _ _); [|discriminate]. injection Hflat as <-.
  unfold upper_positive. rewrite !filter_flat_map.
  apply flat_map_ext_in. intros j Hj. apply in_seq in Hj.
  rewrite <- column_above_diagonal. f_equal.
  apply map_ext_in. intros i Hi. apply in_seq in Hi.
  rewrite !stretch_in_range by lia. reflexivity.
Qed.

(** C2, as the specification states it, fails: for the reference sample 0
    and the test sample 2 (one dimension) the only distance is 2, so the
    candidates of the specification are 2 times the five factors, and the
    method returns the square root of 5 times the five factors. *)
Lemma computeGaussianWidthCandidates_not_median_distance :
  RULSIF.computeGaussianWidthCandidates (of_rows [[0]]) (of_rows [[2]])
  <> spec_width_candidates (of_rows [[0]]) (of_rows [[2]]).
Proof.
  intros H.
  apply (f_equal (fun r => match r with Ok (x :: _) => x <? 1.3 | _ => false end)) in H.
  vm_compute in H. discriminate H.
Qed.

(** C2, amended. Whenever [computeGaussianWidthCandidates] returns, the
    samples were concatenated column-wise, the array [distances] of line 243
    was built from the concatenation, and the result is the five factors
    0.6, 0.8, 1, 1.2, 1.4 each multiplied by the square root of half the
    median of the positive entries of one triangle of that array (one entry
    for every unordered pair of distinct samples). *)
Theorem computeGaussianWidthCandidates_one_triangle (referenceSamples testSamples : ndarray)
        (widths : list float) :
  RULSIF.computeGaussianWidthCandidates referenceSamples testSamples = Ok widths ->
  exists allSamples D,
    numpy.c_ referenceSamples testSamples = Ok allSamples /\
    RULSIF.distances0 (T allSamples) = Ok D /\
    widths = map (fun f => sqrt (0.5 * numpy.median (upper_positive D)) * f)
                 [0.6; 0.8; 1; 1.2; 1.4].
Proof.
  unfold RULSIF.computeGaussianWidthCandidates, RULSIF.getMedianDistanceBetweenSamples.
  intros H.
  apply bind_Ok in H. destruct H as (allSamples & Hall & H).
  apply bind_Ok in H. destruct H as (m & Hm & H).
  apply bind_Ok in Hm. destruct Hm as (selected & Hsel & Hm).
  injection Hm as <-. injection H as <-.
  destruct (positive_distances_upper _ _ Hsel) as (D & HD & ->).
  exists allSamples, D. repeat split; assumption.
Qed.

Lemma computeGaussianWidthCandidates_one_triangle_witness :
  exists widths allSamples D,
    RULSIF.computeGaussianWidthCandidates samples_ref samples_test = Ok widths /\
    numpy.c_ samples_ref samples_test = Ok allSamples /\
    RULSIF.distances0 (T allSamples) = Ok D /\
    widths = map (fun f => sqrt (0.5 * numpy.median (upper_positive D)) * f)
                 [0.6; 0.8; 1; 1.2; 1.4].
Proof.
  eexists.
  assert (H : RULSIF.computeGaussianWidthCandidates samples_ref samples_test = Ok _)
    by (vm_compute; reflexivity).
  destruct (computeGaussianWidthCandidates_one_triangle samples_ref samples_test _ H)
    as (allSamples & D & Hall & HD & Hw).
  exists allSamples, D. exact (conj H (conj Hall (conj HD Hw))).
Defined.

(** C10. There are two sample matrices whose combined columns are at least
    two and all identical, on which the selection [distances[distances > 0]]
    is empty, [getMedianDistanceBetweenSamples] returns [nan] without
    raising, and all five sigma candidates are [nan]. *)
Theorem degenerate_samples_give_nan_widths :
  exists referenceSamples testSamples allSamples,
    numpy.c_ referenceSamples testSamples = Ok allSamples /\
    (1 < shape1 allSamples)%nat /\
    (forall d i j, (d < shape0 allSamples)%nat ->
                   (i < shape1 allSamples)%nat -> (j < shape1 allSamples)%nat ->
                   item allSamples d i = item allSamples d j) /\
    RULSIF.positive_distances (T allSamples) = Ok [] /\
    RULSIF.getMedianDistanceBetweenSamples (T allSamples) = Ok nan /\
    RULSIF.computeGaussianWidthCandidates referenceSamples testSamples
    = Ok [nan; nan; nan; nan; nan].
Proof.
  exists (of_rows [[1e200]]), (of_rows [[1e200]]). eexists.
  split; [|split; [|split; [|split; [|split]]]].
  - unfold numpy.c_. simpl. reflexivity.
  - simpl. lia.
  - simpl. intros d i j Hd Hi Hj.
    destruct d as [|d]; [|lia].
    destruct i as [|[|i]], j as [|[|j]]; try lia; reflexivity.
  - vm_compute. reflexivity.
  - vm_compute. reflexivity.
  - vm_compute. reflexivity.
Qed.

(** ** Cross-validation *)

Lemma is_Ok_bind_false {A B : Type} (c : result A) (k : A -> result B) :
  (forall a, c = Ok a -> is_Ok (k a) = false) -> is_Ok (bind c k) = false.
Proof. destruct c as [a|e]; simpl; intros H; [now apply H | reflexivity]. Qed.

Lemma for_first_fails {A S : Type} (x : A) (l : list A) (body : A -> S -> result S) (s : S) :
  is_Ok (body x s) = false -> is_Ok (for_ (x :: l) body s) = false.
Proof. simpl. destruct (body x s); simpl; [discriminate | reflexivity]. Qed.

Lemma computeGaussianWidthCandidates_size (ref test : ndarray) (v : list float) :
  RULSIF.computeGaussianWidthCandidates ref test = Ok v -> length v = 5%nat.
Proof.
  unfold RULSIF.computeGaussianWidthCandidates. intros H.
  apply bind_Ok in H. destruct H as (allSamples & _ & H).
  apply bind_Ok in H. destruct H as (m & _ & H).
  injection H as <-. reflexivity.
Qed.

Section CrossValidation.
Context {ext : Externals}.

(** No pass through the body of the loop over the folds completes: the
    iterable of the inner loop cannot be evaluated. *)
Lemma fold_body_raises (alpha : float) (basis : option Z) (lambdaCandidates : list float)
      (K_ref K_test : ndarray) (refIdxs testIdxs : list nat) (refSplit testSplit : list Z)
      (sigmaIdx foldIdx : nat) (vars : ndarray * ndarray) :
  is_Ok (RULSIF.fold_body alpha basis lambdaCandidates K_ref K_test refIdxs testIdxs
                          refSplit testSplit sigmaIdx foldIdx vars) = false.
Proof.
  unfold RULSIF.fold_body. destruct vars as [foldResult scores].
  do 3 (apply is_Ok_bind_false; intros ? _).
  reflexivity.
Qed.

Lemma sigma_body_raises (alpha : float) (basis : option Z) (folds : Z)
      (sigmaWidths lambdaCandidates : list float) (ref test centers : ndarray)
      (refIdxs testIdxs : list nat) (refSplit testSplit : list Z)
      (sigmaIdx : nat) (scores : ndarray) :
  (0 < folds)%Z ->
  is_Ok (RULSIF.sigma_body alpha basis folds sigmaWidths lambdaCandidates ref test centers
                           refIdxs testIdxs refSplit testSplit sigmaIdx scores) = false.
Proof.
  intros Hfolds. unfold RULSIF.sigma_body.
  apply is_Ok_bind_false; intros sigma _.
  apply is_Ok_bind_false; intros K_ref0 _.
  apply is_Ok_bind_false; intros K_test0 _.
  apply is_Ok_bind_false; intros foldResult _.
  apply is_Ok_bind_false. intros vars Hvars. exfalso.
  unfold numpy.r_ in Hvars. rewrite Nat.sub_0_r in Hvars.
  destruct (Z.to_nat folds) as [|n] eqn:En; [lia|].
  simpl seq in Hvars.
  pose proof (for_first_fails 0%nat (seq 1 n)
                (RULSIF.fold_body alpha basis lambdaCandidates (T K_ref0) (T K_test0)
                                  refIdxs testIdxs refSplit testSplit sigmaIdx)
                (foldResult, scores) (fold_body_raises _ _ _ _ _ _ _ _ _ _ _ _)) as Hf.
  rewrite Hvars in Hf. discriminate.
Qed.

(** C1, what the code does. In an instance configured with at least one
    fold, [computeModelParameters] returns on no input: it raises on the way
    to, or at, the first evaluation of [numpy.lambdaCandidates]. *)
Theorem computeModelParameters_never_returns (referenceSamples testSamples gaussianCenters : ndarray)
        (w : RULSIF.world) :
  (0 < RULSIF.crossFolds (RULSIF.self w))%Z ->
  is_Ok (fst (RULSIF.computeModelParameters referenceSamples testSamples gaussianCenters w))
  = false.
Proof.
  intros Hfolds. unfold RULSIF.computeModelParameters, mbind, lift, get, RULSIF.permutation.
  destruct (RULSIF.computeGaussianWidthCandidates referenceSamples testSamples)
    as [sigmaWidths|e] eqn:Ew; [|reflexivity].
  apply computeGaussianWidthCandidates_size in Ew. unfold numpy.size. rewrite Ew.
  simpl numpy.zeros. cbv iota beta.
  destruct (random_permutation (shape1 referenceSamples) (RULSIF.random w)) as [refIdxs g1].
  cbv iota beta. simpl RULSIF.random. simpl RULSIF.self.
  destruct (random_permutation (shape1 testSamples) g1) as [testIdxs g2].
  cbv iota beta. simpl RULSIF.self.
  destruct (numpy.zeros 5 5) as [scores|e]; [|reflexivity].
  change (numpy.r_ 0 5) with (0%nat :: seq 1 4).
  match goal with
  | |- context [for_ (0%nat :: seq 1 4) ?body scores] =>
      pose proof (for_first_fails 0%nat (seq 1 4) body scores
                    (sigma_body_raises _ _ _ _ _ _ _ _ _ _ _ _ 0%nat scores Hfolds)) as Hf;
      destruct (for_ (0%nat :: seq 1 4) body scores)
  end.
  - discriminate Hf.
  - reflexivity.
Qed.

End CrossValidation.

Lemma computeModelParameters_never_returns_witness :
  fst (RULSIF.computeModelParameters samples_ref samples_test samples_ref fresh_world)
  = Raise AttributeError
  /\ is_Ok (fst (RULSIF.computeModelParameters samples_ref samples_test samples_ref
                                               fresh_world)) = false.
Proof.
  split.
  - vm_compute. reflexivity.
  - apply (@computeModelParameters_never_returns reference_externals
             samples_ref samples_test samples_ref fresh_world).
    reflexivity.
Defined.

(** ** train *)

Section Train.
Context {ext : Externals}.

Lemma computeModelParameters_self (ref test centers : ndarray) (w : RULSIF.world) :
  RULSIF.self (snd (RULSIF.computeModelParameters ref test centers w)) = RULSIF.self w.
Proof.
  unfold RULSIF.computeModelParameters, mbind, lift, get, RULSIF.permutation.
  destruct (RULSIF.computeGaussianWidthCandidates ref test); [|reflexivity].
  destruct (numpy.zeros _ _); [|reflexivity].
  destruct (random_permutation (shape1 ref) (RULSIF.random w)) as [refIdxs g1].
  cbv iota beta. simpl RULSIF.random. simpl RULSIF.self.
  destruct (random_permutation (shape1 test) g1) as [testIdxs g2].
  cbv iota beta. simpl RULSIF.self.
  destruct (for_ _ _ _); reflexivity.
Qed.

(** [train] is: reseed, select the centers and write them, cross-validate in
    the world so obtained, and write the selected pair when that returned. *)
Lemma train_unfold (ref test : ndarray) (w : RULSIF.world) :
  RULSIF.train ref test w
  = match RULSIF.computeModelParameters ref test (all_columns ref)
            (trained_centers_world ref w) with
    | (Ok optimal, w') =>
        (Ok tt, RULSIF.mkWorld (RULSIF.with_model (Some (fst optimal)) (Some (snd optimal))
                                                  (RULSIF.self w'))
                               (RULSIF.random w'))
    | (Raise e, w') => (Raise e, w')
    end.
Proof.
  unfold RULSIF.train, mbind at 1. unfold RULSIF.seed at 1.
  unfold mbind at 1. rewrite generateGaussianCenters_run.
  unfold mbind at 1. unfold RULSIF.modify_self at 1.
  unfold mbind at 1. unfold RULSIF.modify_self at 1.
  reflexivity.
Qed.

(** C4, amended. When [train] raises, [sigmaWidth] and [lambdaRegularizer]
    are what they were before the call, while [kernelBasis] is the number of
    reference samples and [gaussianCenters] holds the reference samples: the
    centers are written before cross-validation starts and stay written. *)
Theorem train_failure_keeps_model (referenceSamples testSamples : ndarray)
        (w w' : RULSIF.world) (e : exn) :
  RULSIF.train referenceSamples testSamples w = (Raise e, w') ->
  RULSIF.sigmaWidth (RULSIF.self w') = RULSIF.sigmaWidth (RULSIF.self w) /\
  RULSIF.lambdaRegularizer (RULSIF.self w') = RULSIF.lambdaRegularizer (RULSIF.self w) /\
  RULSIF.kernelBasis (RULSIF.self w') = Some (Z.of_nat (shape1 referenceSamples)) /\
  exists centers,
    RULSIF.gaussianCenters (RULSIF.self w') = Some centers /\
    array_eq centers referenceSamples.
Proof.
  rewrite train_unfold.
  pose proof (computeModelParameters_self referenceSamples testSamples
                (all_columns referenceSamples)
                (trained_centers_world referenceSamples w)) as Hself.
  destruct (RULSIF.computeModelParameters referenceSamples testSamples
              (all_columns referenceSamples)
              (trained_centers_world referenceSamples w)) as [[optimal|e'] w1];
    [discriminate|].
  intros H. injection H as _ <-. simpl in Hself. rewrite Hself. simpl.
  repeat split. exists (all_columns referenceSamples).
  split; [reflexivity | apply all_columns_eq].
Qed.

(** C5. Two runs of [train] on the same sample matrices, from instances with
    the same configuration (mixing constant, width and regularization
    overrides, fold count), end alike whatever state the random generator
    was in and whatever centers and basis count each instance held: same
    outcome, same instance afterwards (hence the same sigma and lambda), same
    generator state; and [apply] gives the same outcome after either run. *)
Theorem train_deterministic (referenceSamples testSamples referenceSamples' testSamples' : ndarray)
        (self0 : RULSIF.t) (c1 c2 : option ndarray) (k1 k2 : option Z)
        (g1 g2 : RandomState) :
  let w1 := RULSIF.mkWorld
              (RULSIF.with_gaussianCenters c1 (RULSIF.with_kernelBasis k1 self0)) g1 in
  let w2 := RULSIF.mkWorld
              (RULSIF.with_gaussianCenters c2 (RULSIF.with_kernelBasis k2 self0)) g2 in
  RULSIF.train referenceSamples testSamples w1 = RULSIF.train referenceSamples testSamples w2
  /\ RULSIF.apply referenceSamples' testSamples'
                  (snd (RULSIF.train referenceSamples testSamples w1))
     = RULSIF.apply referenceSamples' testSamples'
                    (snd (RULSIF.train referenceSamples testSamples w2)).
Proof.
  intros w1 w2.
  assert (H : RULSIF.train referenceSamples testSamples w1
              = RULSIF.train referenceSamples testSamples w2).
  { rewrite !train_unfold. reflexivity. }
  split; [assumption | now rewrite H].
Qed.

End Train.

(** C4, as the specification states it, fails: [train] on the samples
    0, 1, 2, 3 and 4, 5, 6, 7 in a new instance raises, and has by then
    replaced the basis count 100 by 4 and written the centers. *)
Lemma train_failure_writes_centers :
  let after := RULSIF.train samples_ref samples_test fresh_world in
  fst after = Raise AttributeError /\
  RULSIF.kernelBasis (RULSIF.self (snd after))
  <> RULSIF.kernelBasis (RULSIF.self fresh_world) /\
  RULSIF.gaussianCenters (RULSIF.self (snd after))
  <> RULSIF.gaussianCenters (RULSIF.self fresh_world).
Proof.
  split; [|split].
  - vm_compute. reflexivity.
  - vm_compute. intros H. discriminate H.
  - vm_compute. intros H. discriminate H.
Qed.

Lemma train_failure_keeps_model_witness :
  let w' := snd (RULSIF.train samples_ref samples_test fresh_world) in
  RULSIF.sigmaWidth (RULSIF.self w') = RULSIF.sigmaWidth (RULSIF.self fresh_world) /\
  RULSIF.lambdaRegularizer (RULSIF.self w')
  = RULSIF.lambdaRegularizer (RULSIF.self fresh_world) /\
  RULSIF.kernelBasis (RULSIF.self w') = Some (Z.of_nat (shape1 samples_ref)) /\
  exists centers,
    RULSIF.gaussianCenters (RULSIF.self w') = Some centers /\
    array_eq centers samples_ref.
Proof.
  intros w'.
  apply (@train_failure_keeps_model reference_externals samples_ref samples_test
           fresh_world w' AttributeError).
  vm_compute. reflexivity.
Defined.

(** ** apply *)

(** C3, what the code does. After [train] has raised in a new instance the
    centers and the basis count are present and sigma and lambda are still
    [None]; neither equals 0.0, so the second guard of [apply] lets the call
    through and the exception comes from the numerical code, as a type
    error.  In an instance with a width and no regularization constant the
    kernel matrices and H are computed before that type error. *)
Theorem apply_guard_misses_missing_model :
  let w := snd (RULSIF.train samples_ref samples_test fresh_world) in
  RULSIF.sigmaWidth (RULSIF.self w) = None /\
  RULSIF.lambdaRegularizer (RULSIF.self w) = None /\
  RULSIF.kernelBasis (RULSIF.self w) = Some 4%Z /\
  (exists centers, RULSIF.gaussianCenters (RULSIF.self w) = Some centers) /\
  RULSIF.is_zero (RULSIF.sigmaWidth (RULSIF.self w))
  || RULSIF.is_zero (RULSIF.lambdaRegularizer (RULSIF.self w)) = false /\
  fst (RULSIF.apply samples_ref samples_test w) = Raise TypeError /\
  (exists K_ref K_test H,
      series_kernel (Some 1) samples_ref samples_ref = Ok K_ref /\
      series_kernel (Some 1) samples_test samples_ref = Ok K_test /\
      AlphaRelativeDensityRatioEstimator.H_hat 0.5 (T K_ref) (T K_test) = Ok H) /\
  fst (RULSIF.apply samples_ref samples_test sigma_only_world) = Raise TypeError.
Proof.
  intros w.
  split; [vm_compute; reflexivity|].
  split; [vm_compute; reflexivity|].
  split; [vm_compute; reflexivity|].
  split; [eexists; vm_compute; reflexivity|].
  split; [vm_compute; reflexivity|].
  split; [vm_compute; reflexivity|].
  split; [|vm_compute; reflexivity].
  do 3 eexists. split; [vm_compute; reflexivity|].
  split; vm_compute; reflexivity.
Qed.

(** ** Further properties *)


(** [apply] never changes the instance or the generator, so a second call
    on the same samples has the same outcome. *)
Theorem apply_leaves_world (ext : Externals) (referenceSamples testSamples : ndarray)
        (w : RULSIF.world) :
  snd (RULSIF.apply referenceSamples testSamples w) = w /\
  fst (RULSIF.apply referenceSamples testSamples
                    (snd (RULSIF.apply referenceSamples testSamples w)))
  = fst (RULSIF.apply referenceSamples testSamples w).
Proof.
  assert (H : snd (RULSIF.apply referenceSamples testSamples w) = w).
  { unfold RULSIF.apply, mbind, get, lift, ret.
    destruct (RULSIF.gaussianCenters (RULSIF.self w)); [|reflexivity].
    destruct (RULSIF.kernelBasis (RULSIF.self w)); [|reflexivity].
    destruct (_ || _); [reflexivity|].
    destruct (PearsonRelativeDivergenceEstimator.apply _ _ _ _); reflexivity. }
  split; [assumption | now rewrite H].
Qed.

(** [H_hat] returns a square matrix of the basis count whenever the two
    kernel matrices have the same number of rows and at least one column
    each. *)
Theorem H_hat_returns (alpha : float) (K_ref K_test : ndarray) :
  shape0 K_ref = shape0 K_test ->
  shape1 K_ref <> 0%nat ->
  shape1 K_test <> 0%nat ->
  exists H,
    AlphaRelativeDensityRatioEstimator.H_hat alpha K_ref K_test = Ok H /\
    shape0 H = shape0 K_ref /\ shape1 H = shape0 K_ref.
Proof.
  intros Hrows Href Htest.
  unfold AlphaRelativeDensityRatioEstimator.H_hat, float_div_int, numpy.dot.
  simpl. rewrite !Nat.eqb_refl.
  destruct (shape1 K_ref); [contradiction|].
  destruct (shape1 K_test); [contradiction|].
  simpl. unfold numpy.add, numpy.broadcast. simpl.
  rewrite <- Hrows, broadcast_dim_same. simpl.
  eexists. split; [reflexivity|]. split; reflexivity.
Qed.

Lemma H_hat_returns_witness :
  exists H,
    AlphaRelativeDensityRatioEstimator.H_hat 0.5 (of_rows [[1; 0.5]; [0.25; 1]])
                                             (of_rows [[1; 0.5; 0]; [0; 0.5; 1]]) = Ok H /\
    shape0 H = 2%nat /\ shape1 H = 2%nat.
Proof.
  apply (H_hat_returns 0.5 (of_rows [[1; 0.5]; [0.25; 1]])
                       (of_rows [[1; 0.5; 0]; [0; 0.5; 1]])).
  - reflexivity.
  - simpl. lia.
  - simpl. lia.
Defined.

(** For the two one-dimensional samples 0 and 2 the array [distances] of
    line 243 is [[10, 10], [10, 2]]: the builtin [sum] of line 239 yields the
    single number 1 + 0 + 4 where the squared norms 0 and 4 are meant, so
    the entry for the pair is 10 and not the squared distance 4. *)
Theorem distances0_of_two_points :
  (bind (RULSIF.distances0 (of_rows [[0]; [2]])) (fun D => Ok (to_rows D)))
  = Ok [[10; 10]; [10; 2]]
  /\ RULSIF.builtin_sum (of_rows [[0]; [4]]) = Ok [5]
  /\ RULSIF.getMedianDistanceBetweenSamples (of_rows [[0]; [2]]) = Ok (sqrt 5).
Proof. repeat split; vm_compute; reflexivity. Qed.

(** ** The median-distance heuristic: when it returns *)

Ltac split_eqb :=
  repeat match goal with
         | |- context [Nat.eqb ?a ?b] =>
             destruct (Nat.eqb_spec a b);
             cbn [bind is_Ok shape0 shape1 orb andb]; try lia
         end.

Lemma median_heuristic_outcome (sampleSet : ndarray) :
  match RULSIF.getMedianDistanceBetweenSamples sampleSet with
  | Ok _ =>
      (0 < shape0 sampleSet)%nat /\
      (shape1 sampleSet = 1%nat \/ shape1 sampleSet = shape0 sampleSet)
  | Raise e =>
      (shape0 sampleSet = 0%nat /\ e = TypeError) \/
      ((0 < shape0 sampleSet)%nat /\ shape1 sampleSet <> 1%nat /\
       shape1 sampleSet <> shape0 sampleSet /\ e = ValueError)
  end.
Proof.
  destruct sampleSet as [n d f].
  unfold RULSIF.getMedianDistanceBetweenSamples, RULSIF.positive_distances,
    RULSIF.distances, RULSIF.distances0.
  unfold numpy.multiply at 1. unfold numpy.broadcast at 1.
  rewrite !broadcast_dim_same. cbn [bind shape0 shape1].
  unfold RULSIF.builtin_sum. cbn [shape0 shape1].
  destruct n as [|n]; [left; split; reflexivity|].
  cbn [bind]. unfold numpy.dot. cbn [T shape0 shape1]. rewrite Nat.eqb_refl.
  cbn [bind].
  unfold numpy.add, numpy.sub, numpy.broadcast, numpy.reshape_F, numpy.tile,
    RULSIF.column, RULSIF.row, numpy.scale, numpy.tril.
  cbn [shape0 shape1]. rewrite length_map, length_seq.
  rewrite !Nat.mul_1_r, !Nat.mul_1_l.
  unfold numpy.broadcast_dim.
  split_eqb.
  all: try (split; lia).
  all: right; repeat split; lia.
Qed.

(** [getMedianDistanceBetweenSamples] returns only for a sample set with at
    least one row whose number of columns (the dimension) is 1 or equals the
    number of rows (the sample count).  Without a row it raises a type
    error; for any other shape the arrays [Q] and [R] cannot be broadcast,
    or the reshape fails, and it raises a value error. *)
Theorem getMedianDistanceBetweenSamples_outcome (sampleSet : ndarray) :
  match RULSIF.getMedianDistanceBetweenSamples sampleSet with
  | Ok _ =>
      (0 < shape0 sampleSet)%nat /\
      (shape1 sampleSet = 1%nat \/ shape1 sampleSet = shape0 sampleSet)
  | Raise e =>
      (shape0 sampleSet = 0%nat /\ e = TypeError) \/
      ((0 < shape0 sampleSet)%nat /\ shape1 sampleSet <> 1%nat /\
       shape1 sampleSet <> shape0 sampleSet /\ e = ValueError)
  end.
Proof. apply median_heuristic_outcome. Qed.

Lemma width_candidates_outcome (referenceSamples testSamples : ndarray) :
  let d := shape0 referenceSamples in
  let n := (shape1 referenceSamples + shape1 testSamples)%nat in
  match RULSIF.computeGaussianWidthCandidates referenceSamples testSamples with
  | Ok widths =>
      shape0 testSamples = d /\ (0 < n)%nat /\ (d = 1%nat \/ d = n) /\
      length widths = 5%nat
  | Raise e =>
      (shape0 testSamples = d /\ n = 0%nat /\ e = TypeError) \/
      ((shape0 testSamples <> d \/ ((0 < n)%nat /\ d <> 1%nat /\ d <> n)) /\ e = ValueError)
  end.
Proof.
  intros d n. unfold RULSIF.computeGaussianWidthCandidates, numpy.c_.
  destruct (Nat.eqb_spec (shape0 referenceSamples) (shape0 testSamples)) as [Hrows|Hrows];
    cbn [bind].
  - match goal with
    | |- context [RULSIF.getMedianDistanceBetweenSamples ?S] =>
        pose proof (median_heuristic_outcome S) as H;
        destruct (RULSIF.getMedianDistanceBetweenSamples S) as [m|e]
    end; cbn [bind T shape0 shape1] in *.
    + destruct H as [Hn Hd]. repeat split; auto.
    + destruct H as [[Hn ->]|(Hn & Hd1 & Hdn & ->)].
      * left. auto.
      * right. split; [right; auto | reflexivity].
  - right. split; [left; auto | reflexivity].
Qed.

(** [computeGaussianWidthCandidates] returns (five widths) only when the two
    sample matrices have the same number of rows [d], there is at least one
    sample in total, and [d] is 1 or equals the total number of samples; it
    raises a type error when there is no sample at all and a value error in
    every other case, in particular for samples of dimension 2 or more
    whose total count differs from the dimension. *)
Theorem computeGaussianWidthCandidates_outcome (referenceSamples testSamples : ndarray) :
  let d := shape0 referenceSamples in
  let n := (shape1 referenceSamples + shape1 testSamples)%nat in
  match RULSIF.computeGaussianWidthCandidates referenceSamples testSamples with
  | Ok widths =>
      shape0 testSamples = d /\ (0 < n)%nat /\ (d = 1%nat \/ d = n) /\
      length widths = 5%nat
  | Raise e =>
      (shape0 testSamples = d /\ n = 0%nat /\ e = TypeError) \/
      ((shape0 testSamples <> d \/ ((0 < n)%nat /\ d <> 1%nat /\ d <> n)) /\ e = ValueError)
  end.
Proof. apply width_candidates_outcome. Qed.

(** ** train and apply never return a score *)

Section Pipeline.
Context {ext : Externals}.

(** With at least one fold the cross-validation raises. *)
Lemma computeModelParameters_raises (ref test centers : ndarray) (w : RULSIF.world) :
  (0 < RULSIF.crossFolds (RULSIF.self w))%Z ->
  exists e, fst (RULSIF.computeModelParameters ref test centers w) = Raise e.
Proof.
  intros Hfolds. unfold RULSIF.computeModelParameters, mbind, lift, get, RULSIF.permutation.
  destruct (RULSIF.computeGaussianWidthCandidates ref test) as [sigmaWidths|e] eqn:Ew;
    [|eexists; reflexivity].
  apply computeGaussianWidthCandidates_size in Ew. unfold numpy.size. rewrite Ew.
  simpl numpy.zeros. cbv iota beta.
  destruct (random_permutation (shape1 ref) (RULSIF.random w)) as [refIdxs g1].
  cbv iota beta. simpl RULSIF.random. simpl RULSIF.self.
  destruct (random_permutation (shape1 test) g1) as [testIdxs g2].
  cbv iota beta. simpl RULSIF.self.
  destruct (numpy.zeros 5 5) as [scores|e]; [|eexists; reflexivity].
  change (numpy.r_ 0 5) with (0%nat :: seq 1 4).
  match goal with
  | |- context [for_ (0%nat :: seq 1 4) ?body scores] =>
      pose proof (for_first_fails 0%nat (seq 1 4) body scores
                    (sigma_body_raises _ _ _ _ _ _ _ _ _ _ _ _ 0%nat scores Hfolds)) as Hf;
      destruct (for_ (0%nat :: seq 1 4) body scores)
  end.
  - discriminate Hf.
  - eexists; reflexivity.
Qed.

Lemma train_raises (referenceSamples testSamples : ndarray) (w : RULSIF.world) :
  (0 < RULSIF.crossFolds (RULSIF.self w))%Z ->
  exists e w',
    RULSIF.train referenceSamples testSamples w = (Raise e, w') /\
    RULSIF.sigmaWidth (RULSIF.self w') = RULSIF.sigmaWidth (RULSIF.self w) /\
    RULSIF.lambdaRegularizer (RULSIF.self w') = RULSIF.lambdaRegularizer (RULSIF.self w).
Proof.
  intros Hfolds. rewrite train_unfold.
  pose proof (computeModelParameters_self referenceSamples testSamples
                (all_columns referenceSamples)
                (trained_centers_world referenceSamples w)) as Hself.
  destruct (computeModelParameters_raises referenceSamples testSamples
              (all_columns referenceSamples)
              (trained_centers_world referenceSamples w) Hfolds) as [e He].
  destruct (RULSIF.computeModelParameters referenceSamples testSamples
              (all_columns referenceSamples)
              (trained_centers_world referenceSamples w)) as [r w1].
  simpl in He, Hself. subst r. exists e, w1. rewrite Hself. simpl. auto.
Qed.

(** In an instance with at least one fold [train] raises on every pair of
    sample matrices, and sigma and lambda are afterwards what they were. *)
Theorem train_never_returns (referenceSamples testSamples : ndarray) (w : RULSIF.world) :
  (0 < RULSIF.crossFolds (RULSIF.self w))%Z ->
  exists e w',
    RULSIF.train referenceSamples testSamples w = (Raise e, w') /\
    RULSIF.sigmaWidth (RULSIF.self w') = RULSIF.sigmaWidth (RULSIF.self w) /\
    RULSIF.lambdaRegularizer (RULSIF.self w') = RULSIF.lambdaRegularizer (RULSIF.self w).
Proof. apply train_raises. Qed.

Lemma theta_hat_without_lambda (H : ndarray) (h : list float) (basis : option Z) :
  is_Ok (AlphaRelativeDensityRatioEstimator.theta_hat H h None basis) = false.
Proof.
  unfold AlphaRelativeDensityRatioEstimator.theta_hat.
  apply is_Ok_bind_false. intros I _. reflexivity.
Qed.

Lemma estimator_apply_without_lambda (alpha : float) (sigma : pyfloat) (basis : option Z)
      (ref test centers : ndarray) :
  is_Ok (AlphaRelativeDensityRatioEstimator.apply
           (AlphaRelativeDensityRatioEstimator.new alpha sigma None basis)
           ref test centers) = false.
Proof.
  unfold AlphaRelativeDensityRatioEstimator.apply. simpl.
  do 3 (apply is_Ok_bind_false; intros ? _).
  apply is_Ok_bind_false. intros theta Htheta.
  pose proof (theta_hat_without_lambda a1 (AlphaRelativeDensityRatioEstimator.h_hat (T a)) basis) as H.
  rewrite Htheta in H. discriminate H.
Qed.

Lemma apply_raises_without_lambda (referenceSamples testSamples : ndarray) (w : RULSIF.world) :
  RULSIF.lambdaRegularizer (RULSIF.self w) = None ->
  is_Ok (fst (RULSIF.apply referenceSamples testSamples w)) = false.
Proof.
  intros Hlam. unfold RULSIF.apply, mbind, get, lift, ret.
  destruct (RULSIF.gaussianCenters (RULSIF.self w)) as [centers|]; [|reflexivity].
  destruct (RULSIF.kernelBasis (RULSIF.self w)) as [k|]; [|reflexivity].
  destruct (_ || _); [reflexivity|].
  unfold PearsonRelativeDivergenceEstimator.apply. simpl. rewrite Hlam.
  pose proof (estimator_apply_without_lambda (RULSIF.alphaConstraint (RULSIF.self w))
                (RULSIF.sigmaWidth (RULSIF.self w)) (Some k)
                referenceSamples testSamples centers) as H.
  destruct (AlphaRelativeDensityRatioEstimator.apply _ _ _ _) as [[r1 r2]|e];
    [discriminate H | reflexivity].
Qed.

(** In an instance whose [lambdaRegularizer] is [None], [apply] never
    returns a score, whatever the kernel evaluator and the solver do: when
    the guards let the call through, [theta_hat] cannot multiply [None]. *)
Theorem apply_without_lambda (referenceSamples testSamples : ndarray) (w : RULSIF.world) :
  RULSIF.lambdaRegularizer (RULSIF.self w) = None ->
  is_Ok (fst (RULSIF.apply referenceSamples testSamples w)) = false.
Proof. apply apply_raises_without_lambda. Qed.

(** An instance constructed without a regularization override, with at
    least one fold: [train] raises, and [apply] after it raises too, on all
    sample matrices. *)
Theorem train_then_apply_without_lambda
        (alpha sigma : pyfloat) (kernels folds : option Z) (g : RandomState)
        (referenceSamples testSamples referenceSamples' testSamples' : ndarray) :
  (0 < match folds with Some k => k | None => 5 end)%Z ->
  let w := RULSIF.mkWorld (RULSIF.init alpha sigma None kernels folds) g in
  is_Ok (fst (RULSIF.train referenceSamples testSamples w)) = false /\
  is_Ok (fst (RULSIF.apply referenceSamples' testSamples'
                           (snd (RULSIF.train referenceSamples testSamples w)))) = false.
Proof.
  intros Hfolds w.
  destruct (train_raises referenceSamples testSamples w Hfolds)
    as (e & w' & Htrain & _ & Hlam).
  rewrite Htrain. simpl. split; [reflexivity|].
  apply apply_raises_without_lambda. rewrite Hlam. reflexivity.
Qed.

End Pipeline.

Lemma train_never_returns_witness :
  exists e w',
    RULSIF.train samples_ref samples_test fresh_world = (Raise e, w') /\
    RULSIF.sigmaWidth (RULSIF.self w') = RULSIF.sigmaWidth (RULSIF.self fresh_world) /\
    RULSIF.lambdaRegularizer (RULSIF.self w')
    = RULSIF.lambdaRegularizer (RULSIF.self fresh_world).
Proof.
  apply (@train_never_returns reference_externals samples_ref samples_test fresh_world).
  reflexivity.
Defined.

Lemma apply_without_lambda_witness :
  is_Ok (fst (RULSIF.apply samples_ref samples_test sigma_only_world)) = false.
Proof.
  apply (@apply_without_lambda reference_externals samples_ref samples_test sigma_only_world).
  reflexivity.
Defined.

Lemma train_then_apply_without_lambda_witness :
  let w := @RULSIF.mkWorld reference_externals
                           (RULSIF.init (Some 0.5) (Some 1) None None (Some 3%Z)) 0%nat in
  is_Ok (fst (RULSIF.train samples_ref samples_test w)) = false /\
  is_Ok (fst (RULSIF.apply samples_test samples_ref
                           (snd (RULSIF.train samples_ref samples_test w)))) = false.
Proof.
  apply (@train_then_apply_without_lambda reference_externals (Some 0.5) (Some 1) None
           (Some 3%Z) 0%nat samples_ref samples_test samples_test samples_ref).
  reflexivity.
Defined.

(** ** train on samples of dimension two or more *)

Section TrainShape.
Context {ext : Externals}.

Lemma computeModelParameters_width_error (ref test centers : ndarray) (w : RULSIF.world)
      (e : exn) :
  RULSIF.computeGaussianWidthCandidates ref test = Raise e ->
  RULSIF.computeModelParameters ref test centers w = (Raise e, w).
Proof.
  intros H. unfold RULSIF.computeModelParameters, mbind, lift. rewrite H. reflexivity.
Qed.

(** For reference and test samples of the same dimension [d >= 2] whose
    total count differs from [d], [train] raises a value error (from the
    median-distance heuristic), having reseeded the generator and written
    the basis count and the centers, and drawn no permutation. *)
Theorem train_raises_ValueError (referenceSamples testSamples : ndarray) (w : RULSIF.world) :
  shape0 testSamples = shape0 referenceSamples ->
  (2 <= shape0 referenceSamples)%nat ->
  (0 < shape1 referenceSamples + shape1 testSamples)%nat ->
  shape0 referenceSamples <> (shape1 referenceSamples + shape1 testSamples)%nat ->
  RULSIF.train referenceSamples testSamples w
  = (Raise ValueError, trained_centers_world referenceSamples w).
Proof.
  intros Hrows Hd Hn Hdn. rewrite train_unfold.
  pose proof (width_candidates_outcome referenceSamples testSamples) as H.
  cbv zeta in H.
  destruct (RULSIF.computeGaussianWidthCandidates referenceSamples testSamples)
    as [widths|e] eqn:Ew.
  - lia.
  - assert (e = ValueError) as -> by (destruct H as [(_ & ? & _)|[_ ?]]; [lia | assumption]).
    rewrite (computeModelParameters_width_error _ _ _ _ _ Ew). reflexivity.
Qed.

End TrainShape.

Lemma train_raises_ValueError_witness :
  RULSIF.train (of_rows [[0; 1; 2]; [0; 1; 0]]) (of_rows [[4; 5; 6]; [3; 3; 4]]) fresh_world
  = (Raise ValueError,
     trained_centers_world (of_rows [[0; 1; 2]; [0; 1; 0]]) fresh_world).
Proof.
  apply (@train_raises_ValueError reference_externals); simpl; lia.
Defined.

Lemma broadcast_dim_error (m n : nat) (e : exn) :
  numpy.broadcast_dim m n = Raise e -> e = ValueError.
Proof.
  unfold numpy.broadcast_dim.
  destruct (Nat.eqb m n); [discriminate|].
  destruct (Nat.eqb m 1); [discriminate|].
  destruct (Nat.eqb n 1); [discriminate|].
  congruence.
Qed.

(** [H_hat] raises a division error exactly when one of the kernel matrices
    has no column, a value error exactly when both have columns and their
    row counts cannot be broadcast, and otherwise returns a square matrix
    of the broadcast row count. *)
Theorem H_hat_outcome (alpha : float) (K_ref K_test : ndarray) :
  match AlphaRelativeDensityRatioEstimator.H_hat alpha K_ref K_test with
  | Ok H =>
      shape1 K_ref <> 0%nat /\ shape1 K_test <> 0%nat /\
      numpy.broadcast_dim (shape0 K_ref) (shape0 K_test) = Ok (shape0 H) /\
      shape1 H = shape0 H
  | Raise e =>
      ((shape1 K_ref = 0%nat \/ shape1 K_test = 0%nat) /\ e = ZeroDivisionError) \/
      (shape1 K_ref <> 0%nat /\ shape1 K_test <> 0%nat /\
       numpy.broadcast_dim (shape0 K_ref) (shape0 K_test) = Raise ValueError /\
       e = ValueError)
  end.
Proof.
  unfold AlphaRelativeDensityRatioEstimator.H_hat, float_div_int, numpy.dot.
  cbn [T shape0 shape1]. rewrite !Nat.eqb_refl.
  destruct (shape1 K_ref) as [|nr]; [left; auto|].
  destruct (shape1 K_test) as [|nt]; [left; auto|].
  cbn [bind]. unfold numpy.add, numpy.broadcast, numpy.scale. cbn [shape0 shape1].
  destruct (numpy.broadcast_dim (shape0 K_ref) (shape0 K_test)) as [r|e] eqn:E; cbn [bind].
  - cbn [shape0 shape1]. repeat split; auto.
  - right. pose proof (broadcast_dim_error _ _ _ E) as ->. repeat split; auto.
Qed.

(** ** Model selection: global minimum, totality *)

Lemma np_le_trans (x y z : float) : np_le x y -> np_le y z -> np_le x z.
Proof.
  unfold np_le. intros [Hx|Hxy] [Hy|Hyz]; auto.
  - destruct (float_leb_not_nan _ _ Hxy) as [_ Hy']. congruence.
  - right. now apply (float_leb_trans x y z).
Qed.

Lemma to_rows_nth_error (a : ndarray) (i : nat) :
  (i < shape0 a)%nat ->
  nth_error (to_rows a) i = Some (map (fun j => item a i j) (seq 0 (shape1 a))).
Proof.
  intros Hi. unfold to_rows.
  rewrite nth_error_map, nth_error_seq.
  destruct (Nat.ltb_spec i (shape0 a)); [reflexivity | lia].
Qed.

Lemma row_nth (a : ndarray) (i j : nat) :
  (j < shape1 a)%nat ->
  nth j (map (fun j => item a i j) (seq 0 (shape1 a))) nan = item a i j.
Proof.
  intros Hj. rewrite (nth_indep _ nan (item a i 0%nat)) by now rewrite length_map, length_seq.
  rewrite (map_nth (fun j => item a i j)). now rewrite seq_nth.
Qed.

Lemma selectOptimal_indices (scores : ndarray) (sw lc : list float) (s l : float) :
  RULSIF.selectOptimal scores sw lc = Ok (s, l) ->
  exists (minScores : list float) (argmins : list nat) (sigmaIdx lambdaIdx : nat),
    sequence (map numpy.min (to_rows scores)) = Ok minScores /\
    sequence (map numpy.argmin (to_rows scores)) = Ok argmins /\
    numpy.argmin minScores = Ok sigmaIdx /\
    nth_error argmins sigmaIdx = Some lambdaIdx /\
    nth_error sw sigmaIdx = Some s /\
    nth_error lc lambdaIdx = Some l.
Proof.
  unfold RULSIF.selectOptimal. intros H.
  apply bind_Ok in H. destruct H as (minScores & Ha & H).
  apply bind_Ok in H. destruct H as (argmins & Ha0 & H).
  apply bind_Ok in H. destruct H as (sigmaIdx & Ha1 & H).
  apply bind_Ok in H. destruct H as (sigma & Ha2 & H).
  apply bind_Ok in H. destruct H as (lambdaIdx & Ha3 & H).
  apply bind_Ok in H. destruct H as (lam & Ha4 & H).
  injection H as <- <-.
  apply index_Ok in Ha2, Ha3, Ha4.
  exists minScores, argmins, sigmaIdx, lambdaIdx. auto 10.
Qed.

(** Whenever the selection returns, the selected pair sits at a position of
    the score matrix whose entry is minimal over the whole matrix (in
    numpy's order, a [nan] being minimal), and no position before it in
    row-major order holds an entry as small. *)
Theorem selectOptimal_global_minimum (crossValidationScores : ndarray)
        (sigmaWidths lambdaCandidates : list float) (optimalSigma optimalLambda : float) :
  RULSIF.selectOptimal crossValidationScores sigmaWidths lambdaCandidates
  = Ok (optimalSigma, optimalLambda) ->
  exists sigmaIdx lambdaIdx,
    nth_error sigmaWidths sigmaIdx = Some optimalSigma /\
    nth_error lambdaCandidates lambdaIdx = Some optimalLambda /\
    (sigmaIdx < shape0 crossValidationScores)%nat /\
    (lambdaIdx < shape1 crossValidationScores)%nat /\
    (forall i j, (i < shape0 crossValidationScores)%nat ->
                 (j < shape1 crossValidationScores)%nat ->
                 np_le (item crossValidationScores sigmaIdx lambdaIdx)
                       (item crossValidationScores i j)) /\
    (forall i j, (i < shape0 crossValidationScores)%nat ->
                 (j < shape1 crossValidationScores)%nat ->
                 (i < sigmaIdx \/ (i = sigmaIdx /\ j < lambdaIdx))%nat ->
                 ~ np_le (item crossValidationScores i j)
                         (item crossValidationScores sigmaIdx lambdaIdx)).
Proof.
  intros H.
  destruct (selectOptimal_indices _ _ _ _ _ H)
    as (minScores & argmins & s & l & Hmins & Hargs & Hs & Hl & Hsw & Hlc).
  destruct (sequence_map_Ok _ _ _ Hmins) as [Hlen Hmin].
  destruct (sequence_map_Ok _ _ _ Hargs) as [Hlen' Harg].
  assert (Hrows : length (to_rows crossValidationScores) = shape0 crossValidationScores)
    by (unfold to_rows; now rewrite length_map, length_seq).
  pose proof (argmin_first_minimum _ _ Hs) as (Hs_lt & Hs_min & Hs_first).
  rewrite Hlen, Hrows in Hs_lt, Hs_min.
  (* every row: its first minimum and the recorded minimum *)
  assert (Hrow : forall i, (i < shape0 crossValidationScores)%nat ->
            exists k, nth_error argmins i = Some k /\
                      first_minimum (map (fun j => item crossValidationScores i j)
                                         (seq 0 (shape1 crossValidationScores))) k /\
                      nth i minScores nan = item crossValidationScores i k /\
                      (k < shape1 crossValidationScores)%nat).
  { intros i Hi. pose proof (to_rows_nth_error crossValidationScores i Hi) as Hr.
    destruct (Hmin i _ Hr) as (m & Hm & Hmr).
    destruct (Harg i _ Hr) as (k & Hk & Hkr).
    pose proof (argmin_first_minimum _ _ Hkr) as Hfm.
    assert (Hklt : (k < shape1 crossValidationScores)%nat).
    { destruct Hfm as [Hlt _]. now rewrite length_map, length_seq in Hlt. }
    exists k. repeat split; try assumption; try apply Hfm.
    rewrite (nth_error_nth _ _ nan Hm), (min_is_argmin _ _ _ Hmr Hkr).
    now apply row_nth. }
  destruct (Hrow s Hs_lt) as (l' & Hl' & Hfm_s & Hmin_s & Hl_lt).
  rewrite Hl in Hl'. injection Hl' as <-.
  exists s, l. repeat split; try assumption.
  - intros i j Hi Hj.
    destruct (Hrow i Hi) as (k & _ & (_ & Hk_min & _) & Hmin_i & Hk_lt).
    rewrite <- Hmin_s. apply (np_le_trans _ (nth i minScores nan)); [now apply Hs_min|].
    rewrite Hmin_i. specialize (Hk_min j).
    rewrite length_map, length_seq, !row_nth in Hk_min by assumption. now apply Hk_min.
  - intros i j Hi Hj [Hlt|[-> Hlt]] Hle.
    + destruct (Hrow i Hi) as (k & _ & (_ & Hk_min & _) & Hmin_i & Hk_lt).
      apply (Hs_first i Hlt). rewrite Hmin_s, Hmin_i.
      apply (np_le_trans _ (item crossValidationScores i j)); [|assumption].
      specialize (Hk_min j).
      rewrite length_map, length_seq, !row_nth in Hk_min by assumption. now apply Hk_min.
    + destruct Hfm_s as (_ & _ & Hfirst). apply (Hfirst j Hlt).
      rewrite !row_nth by lia. assumption.
Qed.

Lemma sequence_map_total {A B : Type} (f : A -> result B) (l : list A) :
  (forall x, In x l -> exists y, f x = Ok y) -> exists ys, sequence (map f l) = Ok ys.
Proof.
  induction l as [|a l IH]; simpl; intros H; [eauto|].
  destruct (H a) as [y Hy]; [auto|]. destruct IH as [ys Hys]; [intros; apply H; auto|].
  rewrite Hy, Hys. simpl. eauto.
Qed.

Lemma to_rows_In (a : ndarray) (r : list float) :
  In r (to_rows a) -> length r = shape1 a.
Proof.
  unfold to_rows. intros H. apply in_map_iff in H. destruct H as (i & <- & _).
  now rewrite length_map, length_seq.
Qed.

(** The selection returns whenever the score matrix has at least one row
    and one column and there is a sigma candidate for every row and a
    lambda candidate for every column. *)
Theorem selectOptimal_returns (crossValidationScores : ndarray)
        (sigmaWidths lambdaCandidates : list float) :
  (0 < shape0 crossValidationScores <= length sigmaWidths)%nat ->
  (0 < shape1 crossValidationScores <= length lambdaCandidates)%nat ->
  exists optimalSigma optimalLambda,
    RULSIF.selectOptimal crossValidationScores sigmaWidths lambdaCandidates
    = Ok (optimalSigma, optimalLambda).
Proof.
  intros Hrows Hcols. unfold RULSIF.selectOptimal.
  assert (Hlenrows : length (to_rows crossValidationScores) = shape0 crossValidationScores)
    by (unfold to_rows; now rewrite length_map, length_seq).
  destruct (sequence_map_total numpy.min (to_rows crossValidationScores)) as [mins Hmins].
  { intros r Hr. apply to_rows_In in Hr. destruct r; [simpl in Hr; lia|]. simpl. eauto. }
  destruct (sequence_map_total numpy.argmin (to_rows crossValidationScores)) as [args Hargs].
  { intros r Hr. apply to_rows_In in Hr. destruct r; [simpl in Hr; lia|]. simpl. eauto. }
  rewrite Hmins, Hargs. cbn [bind].
  destruct (sequence_map_Ok _ _ _ Hmins) as [Hlen _].
  destruct (sequence_map_Ok _ _ _ Hargs) as [Hlen' Harg].
  destruct (numpy.argmin mins) as [s|e] eqn:Es.
  2:{ destruct mins; [simpl in Hlen; lia | discriminate Es]. }
  cbn [bind].
  pose proof (argmin_first_minimum _ _ Es) as (Hs & _).
  rewrite Hlen, Hlenrows in Hs.
  unfold index.
  destruct (nth_error sigmaWidths s) as [sigma|] eqn:Esw;
    [|apply nth_error_None in Esw; lia].
  cbn [bind].
  destruct (nth_error args s) as [l|] eqn:El;
    [|apply nth_error_None in El; lia].
  cbn [bind].
  pose proof (to_rows_nth_error crossValidationScores s Hs) as Hr.
  destruct (Harg s _ Hr) as (l' & Hl' & Hlr).
  rewrite El in Hl'. injection Hl' as <-.
  pose proof (argmin_first_minimum _ _ Hlr) as (Hl & _).
  rewrite length_map, length_seq in Hl.
  destruct (nth_error lambdaCandidates l) as [lam|] eqn:Elc;
    [|apply nth_error_None in Elc; lia].
  cbn [bind]. eauto.
Qed.

(** On a score matrix without rows or without columns the selection raises
    a value error. *)
Theorem selectOptimal_empty (crossValidationScores : ndarray)
        (sigmaWidths lambdaCandidates : list float) :
  shape0 crossValidationScores = 0%nat \/ shape1 crossValidationScores = 0%nat ->
  RULSIF.selectOptimal crossValidationScores sigmaWidths lambdaCandidates
  = Raise ValueError.
Proof.
  unfold RULSIF.selectOptimal, to_rows.
  destruct (shape0 crossValidationScores) as [|n] eqn:E0.
  - intros _. reflexivity.
  - intros [H|H]; [discriminate|]. rewrite H. reflexivity.
Qed.

(** ** Fold assignment *)

Lemma cv_split_length (n : nat) (folds : Z) : length (RULSIF.cv_split n folds) = n.
Proof. unfold RULSIF.cv_split, numpy.r_. now rewrite length_map, length_seq, Nat.sub_0_r. Qed.

Lemma cv_split_nth (n : nat) (folds : Z) (k : nat) :
  (k < n)%nat ->
  nth k (RULSIF.cv_split n folds) 0%Z = (Z.of_nat k * folds / Z.of_nat n)%Z.
Proof.
  intros Hk. unfold RULSIF.cv_split, numpy.r_. rewrite Nat.sub_0_r.
  rewrite (map_nth (fun k => (Z.of_nat k * folds / Z.of_nat n)%Z) (seq 0 n) 0%nat).
  now rewrite seq_nth.
Qed.


(** When there are at least as many samples as folds, every fold is
    assigned to some position: no held-out partition is empty. *)
Theorem cv_split_every_fold (n : nat) (folds f : Z) :
  (0 < folds <= Z.of_nat n)%Z -> (0 <= f < folds)%Z ->
  exists k, (k < n)%nat /\ nth k (RULSIF.cv_split n folds) 0%Z = f.
Proof.
  intros Hfolds Hf.
  set (N := Z.of_nat n) in *.
  set (q := ((f * N + folds - 1) / folds)%Z).
  assert (Hq1 : (folds * q <= f * N + folds - 1)%Z)
    by (apply Z.mul_div_le; lia).
  assert (Hq2 : (f * N + folds - 1 < folds * (q + 1))%Z).
  { unfold q. pose proof (Z.mul_succ_div_gt (f * N + folds - 1) folds). lia. }
  assert (Hq0 : (0 <= q)%Z) by (apply Z.div_pos; nia).
  assert (HqN : (q < N)%Z) by nia.
  exists (Z.to_nat q). split; [lia|].
  rewrite cv_split_nth by lia. rewrite Z2Nat.id by lia. fold N.
  symmetry. apply Z.div_unique with (r := (q * folds - f * N)%Z); nia.
Qed.

Lemma select_partition {A : Type} (v : list A) (mask : list bool) :
  length v = length mask ->
  Permutation (numpy.select v (map negb mask) ++ numpy.select v mask) v.
Proof.
  revert mask. induction v as [|x v IH]; intros [|b mask] H; simpl in *; try discriminate.
  - constructor.
  - injection H as H. destruct b; simpl.
    + apply Permutation_sym, Permutation_cons_app, Permutation_sym. now apply IH.
    + constructor. now apply IH.
Qed.

(** For every fold, the indices of the training partition followed by those
    of the held-out partition are a permutation of [range(n)]: every sample
    is in exactly one of the two, for every generator state and fold count. *)
Theorem fold_partition (ext : Externals) (n : nat) (folds : Z) (g : RandomState)
        (foldIdx : nat) :
  let idxs := fst (random_permutation n g) in
  let split := RULSIF.cv_split n folds in
  Permutation
    (numpy.select idxs (map (fun s => negb (s =? Z.of_nat foldIdx)%Z) split)
     ++ numpy.select idxs (map (fun s => (s =? Z.of_nat foldIdx)%Z) split))
    (seq 0 n).
Proof.
  intros idxs split.
  pose proof (random_permutation_spec n g) as Hperm. fold idxs in Hperm.
  apply (Permutation_trans (l' := idxs)); [|assumption].
  rewrite <- (map_map (fun s => (s =? Z.of_nat foldIdx)%Z) negb).
  apply select_partition.
  rewrite length_map. unfold split. rewrite cv_split_length.
  rewrite (Permutation_length Hperm). now rewrite length_seq.
Qed.

(** ** Ratio vectors *)

Lemma g_of_X_theta_shape (KernelMatrix_samples : ndarray) (theta_hat : list float) :
  match AlphaRelativeDensityRatioEstimator.g_of_X_theta KernelMatrix_samples theta_hat with
  | Ok ratio =>
      length theta_hat = shape0 KernelMatrix_samples /\
      length ratio = shape1 KernelMatrix_samples
  | Raise e =>
      length theta_hat <> shape0 KernelMatrix_samples /\ e = ValueError
  end.
Proof.
  unfold AlphaRelativeDensityRatioEstimator.g_of_X_theta, numpy.dot_vec.
  cbn [T shape0 shape1].
  destruct (Nat.eqb_spec (shape0 KernelMatrix_samples) (length theta_hat)).
  - split; [congruence|]. now rewrite length_map, length_seq.
  - split; [congruence | reflexivity].
Qed.

(** [g_of_X_theta] returns one ratio per column of the kernel matrix when
    [theta_hat] has as many entries as the matrix has rows, and raises a
    value error otherwise. *)
Theorem g_of_X_theta_outcome (KernelMatrix_samples : ndarray) (theta_hat : list float) :
  match AlphaRelativeDensityRatioEstimator.g_of_X_theta KernelMatrix_samples theta_hat with
  | Ok ratio =>
      length theta_hat = shape0 KernelMatrix_samples /\
      length ratio = shape1 KernelMatrix_samples
  | Raise e =>
      length theta_hat <> shape0 KernelMatrix_samples /\ e = ValueError
  end.
Proof. apply g_of_X_theta_shape. Qed.

(** With a kernel evaluator that returns one row per sample, the two ratio
    vectors the density-ratio estimator returns are as long as the
    reference and the test sample counts. *)
Theorem ratio_lengths (ext : Externals) (self : AlphaRelativeDensityRatioEstimator.t)
        (referenceSamples testSamples gaussianCenters : ndarray)
        (r_alpha_ref r_alpha_test : list float) :
  (forall sigma samples centers K,
      GaussianKernel_apply sigma samples centers = Ok K -> shape0 K = shape1 samples) ->
  AlphaRelativeDensityRatioEstimator.apply self referenceSamples testSamples gaussianCenters
  = Ok (r_alpha_ref, r_alpha_test) ->
  length r_alpha_ref = shape1 referenceSamples /\
  length r_alpha_test = shape1 testSamples.
Proof.
  intros Hkernel H. unfold AlphaRelativeDensityRatioEstimator.apply in H.
  apply bind_Ok in H. destruct H as (K_ref0 & HK_ref & H).
  apply bind_Ok in H. destruct H as (K_test0 & HK_test & H).
  apply bind_Ok in H. destruct H as (Hm & _ & H).
  apply bind_Ok in H. destruct H as (theta & _ & H).
  apply bind_Ok in H. destruct H as (r1 & Hr1 & H).
  apply bind_Ok in H. destruct H as (r2 & Hr2 & H).
  injection H as <- <-.
  pose proof (g_of_X_theta_shape (T K_ref0) theta) as H1. rewrite Hr1 in H1.
  pose proof (g_of_X_theta_shape (T K_test0) theta) as H2. rewrite Hr2 in H2.
  cbn [T shape0 shape1] in H1, H2.
  rewrite <- (Hkernel _ _ _ _ HK_ref), <- (Hkernel _ _ _ _ HK_test).
  split; [apply H1 | apply H2].
Qed.

Lemma series_kernel_shape (sigma : pyfloat) (samples centers K : ndarray) :
  series_kernel sigma samples centers = Ok K -> shape0 K = shape1 samples.
Proof.
  unfold series_kernel. destruct sigma; [|discriminate].
  destruct (Nat.eqb _ _); [|discriminate]. intros H. injection H as <-. reflexivity.
Qed.

Lemma ratio_lengths_witness :
  exists r_alpha_ref r_alpha_test,
    AlphaRelativeDensityRatioEstimator.apply (ext := reference_externals)
      (AlphaRelativeDensityRatioEstimator.new 0.5 (Some 1) (Some 0.1) (Some 2%Z))
      (of_rows [[0; 1]]) (of_rows [[2; 3; 4]]) (of_rows [[0; 1]])
    = Ok (r_alpha_ref, r_alpha_test)
    /\ length r_alpha_ref = 2%nat /\ length r_alpha_test = 3%nat.
Proof.
  eexists. eexists.
  assert (H : AlphaRelativeDensityRatioEstimator.apply (ext := reference_externals)
      (AlphaRelativeDensityRatioEstimator.new 0.5 (Some 1) (Some 0.1) (Some 2%Z))
      (of_rows [[0; 1]]) (of_rows [[2; 3; 4]]) (of_rows [[0; 1]]) = Ok (_, _))
    by (vm_compute; reflexivity).
  split; [exact H|].
  exact (ratio_lengths reference_externals _ _ _ _ _ _ series_kernel_shape H).
Defined.

(** ** Zero folds *)

Section NoFolds.
Context {ext : Externals}.

Lemma sigma_body_without_folds (alpha : float) (basis : option Z)
      (sigmaWidths lambdaCandidates : list float) (ref test centers : ndarray)
      (refIdxs testIdxs : list nat) (refSplit testSplit : list Z)
      (sigmaIdx : nat) (scores : ndarray) (sigma : float) :
  nth_error sigmaWidths sigmaIdx = Some sigma ->
  is_Ok (GaussianKernel_apply (Some sigma) ref centers) = true ->
  is_Ok (GaussianKernel_apply (Some sigma) test centers) = true ->
  RULSIF.sigma_body alpha basis 0 sigmaWidths lambdaCandidates ref test centers
                    refIdxs testIdxs refSplit testSplit sigmaIdx scores = Ok scores.
Proof.
  intros Hs Hr Ht. unfold RULSIF.sigma_body, index. rewrite Hs. cbn [bind].
  destruct (GaussianKernel_apply (Some sigma) ref centers); [|discriminate].
  destruct (GaussianKernel_apply (Some sigma) test centers); [|discriminate].
  reflexivity.
Qed.

Lemma cross_validation_without_folds (referenceSamples testSamples gaussianCenters : ndarray)
        (w : RULSIF.world) (sigmaWidths : list float) :
  RULSIF.crossFolds (RULSIF.self w) = 0%Z ->
  RULSIF.computeGaussianWidthCandidates referenceSamples testSamples = Ok sigmaWidths ->
  (forall sigma, In sigma sigmaWidths ->
     is_Ok (GaussianKernel_apply (Some sigma) referenceSamples gaussianCenters) = true /\
     is_Ok (GaussianKernel_apply (Some sigma) testSamples gaussianCenters) = true) ->
  fst (RULSIF.computeModelParameters referenceSamples testSamples gaussianCenters w)
  = Ok (nth 0 sigmaWidths nan, 0.001).
Proof.
  intros Hfolds Hw Hkernel.
  pose proof (computeGaussianWidthCandidates_size _ _ _ Hw) as Hlen.
  destruct sigmaWidths as [|a [|b [|c [|d [|e [|]]]]]]; try discriminate Hlen.
  unfold RULSIF.computeModelParameters, mbind, lift, get, RULSIF.permutation.
  rewrite Hw. cbn [numpy.size length]. simpl numpy.zeros. cbv iota beta.
  destruct (random_permutation (shape1 referenceSamples) (RULSIF.random w)) as [refIdxs g1].
  cbv iota beta. simpl RULSIF.random. simpl RULSIF.self.
  destruct (random_permutation (shape1 testSamples) g1) as [testIdxs g2].
  cbv iota beta. simpl RULSIF.self. rewrite Hfolds.
  change (numpy.zeros 5 5) with (Ok (mkArray 5 5 (fun _ _ => 0))). cbv iota beta.
  change (numpy.r_ 0 5) with [0; 1; 2; 3; 4]%nat.
  cbn [for_].
  rewrite (sigma_body_without_folds _ _ _ _ _ _ _ _ _ _ _ 0%nat _ a);
    try reflexivity; try (apply Hkernel; simpl; auto).
  cbn [bind].
  rewrite (sigma_body_without_folds _ _ _ _ _ _ _ _ _ _ _ 1%nat _ b);
    try reflexivity; try (apply Hkernel; simpl; auto).
  cbn [bind].
  rewrite (sigma_body_without_folds _ _ _ _ _ _ _ _ _ _ _ 2%nat _ c);
    try reflexivity; try (apply Hkernel; simpl; auto).
  cbn [bind].
  rewrite (sigma_body_without_folds _ _ _ _ _ _ _ _ _ _ _ 3%nat _ d);
    try reflexivity; try (apply Hkernel; simpl; auto).
  cbn [bind].
  rewrite (sigma_body_without_folds _ _ _ _ _ _ _ _ _ _ _ 4%nat _ e);
    try reflexivity; try (apply Hkernel; simpl; auto 6).
Qed.

(** With a fold count of 0 nothing is fitted or validated: when the width
    candidates are computed and the kernel evaluator returns for each of
    them, [computeModelParameters] returns the first width candidate and
    the first regularization candidate 0.001. *)
Theorem computeModelParameters_without_folds (referenceSamples testSamples gaussianCenters : ndarray)
        (w : RULSIF.world) (sigmaWidths : list float) :
  RULSIF.crossFolds (RULSIF.self w) = 0%Z ->
  RULSIF.computeGaussianWidthCandidates referenceSamples testSamples = Ok sigmaWidths ->
  (forall sigma, In sigma sigmaWidths ->
     is_Ok (GaussianKernel_apply (Some sigma) referenceSamples gaussianCenters) = true /\
     is_Ok (GaussianKernel_apply (Some sigma) testSamples gaussianCenters) = true) ->
  fst (RULSIF.computeModelParameters referenceSamples testSamples gaussianCenters w)
  = Ok (nth 0 sigmaWidths nan, 0.001).
Proof. apply cross_validation_without_folds. Qed.

(** With a fold count of 0, under the same conditions, [train] returns and
    leaves the first width candidate and 0.001 as sigma and lambda. *)
Theorem train_without_folds (referenceSamples testSamples : ndarray)
        (w : RULSIF.world) (sigmaWidths : list float) :
  RULSIF.crossFolds (RULSIF.self w) = 0%Z ->
  RULSIF.computeGaussianWidthCandidates referenceSamples testSamples = Ok sigmaWidths ->
  (forall sigma, In sigma sigmaWidths ->
     is_Ok (GaussianKernel_apply (Some sigma) referenceSamples
                                 (all_columns referenceSamples)) = true /\
     is_Ok (GaussianKernel_apply (Some sigma) testSamples
                                 (all_columns referenceSamples)) = true) ->
  let after := RULSIF.train referenceSamples testSamples w in
  fst after = Ok tt /\
  RULSIF.sigmaWidth (RULSIF.self (snd after)) = Some (nth 0 sigmaWidths nan) /\
  RULSIF.lambdaRegularizer (RULSIF.self (snd after)) = Some 0.001.
Proof.
  intros Hfolds Hw Hkernel after. unfold after. rewrite train_unfold.
  pose proof (cross_validation_without_folds referenceSamples testSamples
                (all_columns referenceSamples)
                (trained_centers_world referenceSamples w) sigmaWidths Hfolds Hw Hkernel) as H.
  destruct (RULSIF.computeModelParameters referenceSamples testSamples
              (all_columns referenceSamples)
              (trained_centers_world referenceSamples w)) as [r w1].
  simpl in H. subst r. simpl. auto.
Qed.

End NoFolds.

Lemma series_kernel_returns (sigma : float) (samples centers : ndarray) :
  shape0 samples = shape0 centers ->
  is_Ok (series_kernel (Some sigma) samples centers) = true.
Proof. intros H. unfold series_kernel. rewrite H, Nat.eqb_refl. reflexivity. Qed.

Lemma train_without_folds_witness :
  let w := @RULSIF.mkWorld reference_externals
                           (RULSIF.init (Some 0.5) None None None (Some 0%Z)) 7%nat in
  exists sigmaWidths,
    RULSIF.computeGaussianWidthCandidates samples_ref samples_test = Ok sigmaWidths /\
    let after := RULSIF.train samples_ref samples_test w in
    fst after = Ok tt /\
    RULSIF.sigmaWidth (RULSIF.self (snd after)) = Some (nth 0 sigmaWidths nan) /\
    RULSIF.lambdaRegularizer (RULSIF.self (snd after)) = Some 0.001.
Proof.
  intros w. eexists.
  assert (H : RULSIF.computeGaussianWidthCandidates samples_ref samples_test = Ok _)
    by (vm_compute; reflexivity).
  split; [exact H|].
  apply (@train_without_folds reference_externals samples_ref samples_test w _
           eq_refl H).
  intros sigma _. split; apply series_kernel_returns; reflexivity.
Defined.

Lemma computeModelParameters_without_folds_witness :
  let w := @RULSIF.mkWorld reference_externals
                           (RULSIF.init (Some 0.5) None None None (Some 0%Z)) 7%nat in
  exists sigmaWidths,
    RULSIF.computeGaussianWidthCandidates samples_ref samples_test = Ok sigmaWidths /\
    fst (RULSIF.computeModelParameters samples_ref samples_test samples_ref w)
    = Ok (nth 0 sigmaWidths nan, 0.001).
Proof.
  intros w. eexists.
  assert (H : RULSIF.computeGaussianWidthCandidates samples_ref samples_test = Ok _)
    by (vm_compute; reflexivity).
  split; [exact H|].
  apply (@computeModelParameters_without_folds reference_externals samples_ref samples_test
           samples_ref w _ eq_refl H).
  intros sigma _. split; apply series_kernel_returns; reflexivity.
Defined.

(** ** Not-a-number *)

Lemma Prim2SF_nan : Prim2SF nan = S754_nan.
Proof. reflexivity. Qed.

Lemma float_mul_nan_r (x : float) : x * nan = nan.
Proof.
  apply Prim2SF_inj. rewrite mul_spec, Prim2SF_nan.
  unfold SF64mul. destruct (Prim2SF x); reflexivity.
Qed.

Lemma float_add_nan_r (x : float) : x + nan = nan.
Proof.
  apply Prim2SF_inj. rewrite add_spec, Prim2SF_nan.
  unfold SF64add. destruct (Prim2SF x); reflexivity.
Qed.

Lemma float_sub_nan_r (x : float) : x - nan = nan.
Proof.
  apply Prim2SF_inj. rewrite sub_spec, Prim2SF_nan.
  unfold SF64sub. destruct (Prim2SF x); reflexivity.
Qed.

Lemma float_sub_nan_l (x : float) : nan - x = nan.
Proof.
  apply Prim2SF_inj. rewrite sub_spec, Prim2SF_nan. reflexivity.
Qed.

(** The objective [J_of_theta] is [nan] whenever one of the two ratio
    vectors is empty. *)
Theorem J_of_theta_empty (alpha : float) (g : list float) :
  AlphaRelativeDensityRatioEstimator.J_of_theta alpha [] g = nan /\
  AlphaRelativeDensityRatioEstimator.J_of_theta alpha g [] = nan.
Proof.
  unfold AlphaRelativeDensityRatioEstimator.J_of_theta. split.
  - change (numpy.mean []) with nan. apply float_sub_nan_r.
  - change (numpy.mean (square [])) with nan.
    rewrite float_mul_nan_r, float_add_nan_r. apply float_sub_nan_l.
Qed.

Lemma getMedianDistanceBetweenSamples_single (sampleSet : ndarray) :
  shape0 sampleSet = 1%nat -> shape1 sampleSet = 1%nat ->
  RULSIF.getMedianDistanceBetweenSamples sampleSet = Ok nan.
Proof.
  intros Hn Hd.
  unfold RULSIF.getMedianDistanceBetweenSamples.
  destruct (RULSIF.positive_distances sampleSet) as [selected|e] eqn:Esel.
  - destruct (positive_distances_upper _ _ Esel) as (D & HD & ->).
    assert (HD1 : shape1 D = 1%nat).
    { destruct sampleSet as [n d f]. cbn [shape0 shape1] in Hn, Hd. subst n d.
      vm_compute in HD. injection HD as <-. reflexivity. }
    unfold upper_positive. rewrite HD1. reflexivity.
  - pose proof (median_heuristic_outcome sampleSet) as H.
    unfold RULSIF.getMedianDistanceBetweenSamples in H. rewrite Esel in H.
    cbn [bind] in H. lia.
Qed.

(** With one one-dimensional sample in total, all five width candidates are
    [nan], and nothing is raised. *)
Theorem single_sample_gives_nan_widths (referenceSamples testSamples : ndarray) :
  shape0 referenceSamples = 1%nat ->
  shape0 testSamples = 1%nat ->
  (shape1 referenceSamples + shape1 testSamples = 1)%nat ->
  RULSIF.computeGaussianWidthCandidates referenceSamples testSamples
  = Ok [nan; nan; nan; nan; nan].
Proof.
  intros Hr Ht Hn. unfold RULSIF.computeGaussianWidthCandidates, numpy.c_.
  rewrite Hr, Ht. cbn [Nat.eqb bind]. rewrite Hn.
  rewrite getMedianDistanceBetweenSamples_single by reflexivity.
  reflexivity.
Qed.

Lemma single_sample_gives_nan_widths_witness :
  RULSIF.computeGaussianWidthCandidates (of_rows [[3]]) (mkArray 1 0 (fun _ _ => 0))
  = Ok [nan; nan; nan; nan; nan].
Proof.
  apply single_sample_gives_nan_widths; reflexivity.
Defined.

(** ** One-dimensional samples *)

Lemma broadcast_dim_1_l (m : nat) : numpy.broadcast_dim 1 m = Ok m.
Proof.
  unfold numpy.broadcast_dim. destruct (Nat.eqb_spec 1 m); [congruence | reflexivity].
Qed.

Lemma broadcast_dim_1_r (m : nat) : numpy.broadcast_dim m 1 = Ok m.
Proof.
  unfold numpy.broadcast_dim. destruct (Nat.eqb_spec m 1) as [->|H]; reflexivity.
Qed.

Lemma stretch_1 (i : nat) : numpy.stretch 1 i = 0%nat.
Proof. reflexivity. Qed.

Lemma stretch_0 (dim : nat) : numpy.stretch dim 0 = 0%nat.
Proof. unfold numpy.stretch. destruct (Nat.eqb dim 1); reflexivity. Qed.

(** For one-dimensional samples [x] the array [distances] of line 243 has
    the entry [G + G - 2 * (0 + x_i * x_j)] at every position, where [G] is
    the one number [1 + x_0^2 + x_1^2 + ...] that the builtin [sum] of line
    239 produces: the same [G] for every pair, not the squared norms of the
    two samples. *)
Theorem distances0_one_dimension (sampleSet : ndarray) :
  shape1 sampleSet = 1%nat -> (0 < shape0 sampleSet)%nat ->
  let n := shape0 sampleSet in
  let x := fun i => item sampleSet i 0%nat in
  let G := fold_left add (map (fun k => x k * x k) (seq 1 (n - 1))) (1 + x 0%nat * x 0%nat) in
  exists D,
    RULSIF.distances0 sampleSet = Ok D /\
    shape0 D = n /\ shape1 D = n /\
    forall i j, (i < n)%nat -> (j < n)%nat ->
                item D i j = G + G - 2 * (0 + x i * x j).
Proof.
  destruct sampleSet as [n d f]. cbn [shape0 shape1 item]. intros Hd Hn. subst d.
  cbv zeta. destruct n as [|n]; [lia|].
  unfold RULSIF.distances0.
  unfold numpy.multiply at 1. unfold numpy.broadcast at 1.
  rewrite !broadcast_dim_same. cbn [bind shape0 shape1].
  unfold RULSIF.builtin_sum. cbn [shape0 shape1 bind].
  unfold numpy.dot. cbn [T shape0 shape1 bind Nat.eqb].
  unfold numpy.add, numpy.sub, numpy.broadcast, numpy.tile,
    RULSIF.column, RULSIF.row, numpy.scale.
  cbn [shape0 shape1 length map seq]. rewrite !Nat.mul_1_l.
  rewrite broadcast_dim_1_l, broadcast_dim_1_r. cbn [bind shape0 shape1].
  rewrite !broadcast_dim_same. cbn [bind].
  eexists. split; [reflexivity|]. cbn [shape0 shape1 item]. split; [reflexivity|].
  split; [reflexivity|].
  intros i j Hi Hj.
  rewrite !stretch_1, !stretch_0, !(stretch_in_range (S n)) by assumption.
  rewrite !Nat.mod_1_r. cbn [nth fold_left].
  replace (S n - 1)%nat with n by lia.
  f_equal. f_equal; f_equal; apply map_ext_in; intros k Hk; apply in_seq in Hk;
    rewrite (stretch_in_range (S n)) by lia; reflexivity.
Qed.

(** ** The other center-selection strategies *)

Section StrategiesFacts.
Context {ext : Externals}.

Lemma forallb_ltb_incl (n : nat) (l : list nat) :
  (forall x, In x l -> (x < n)%nat) -> forallb (fun k => Nat.ltb k n) l = true.
Proof.
  intros H. apply forallb_forall. intros x Hx. apply Nat.ltb_lt. now apply H.
Qed.

(** [generateFirstNGaussianCenters] never raises in an instance with a basis
    count [k]: it sets the basis count to [min(k, n)] for [n] reference
    samples and returns the first [min(k, n)] columns of the reference
    samples (none when [k] is negative). *)
Theorem generateFirstNGaussianCenters_clamps (referenceSamples : ndarray)
        (alpha : float) (sigma lambda : pyfloat) (k folds : Z) (centers0 : option ndarray)
        (g : RandomState) :
  let n := shape1 referenceSamples in
  let m := Z.to_nat (Z.min k (Z.of_nat n)) in
  exists centers,
    generateFirstNGaussianCenters referenceSamples
      (RULSIF.mkWorld (RULSIF.new alpha sigma lambda (Some k) folds centers0) g)
    = (Ok centers,
       RULSIF.mkWorld (RULSIF.new alpha sigma lambda (Some (Z.min k (Z.of_nat n)))
                                  folds centers0) g) /\
    shape0 centers = shape0 referenceSamples /\
    shape1 centers = m /\ (m <= n)%nat /\
    forall i j, (j < m)%nat -> item centers i j = item referenceSamples i j.
Proof.
  intros n m.
  unfold generateFirstNGaussianCenters, mbind, get, lift, RULSIF.modify_self.
  cbn [RULSIF.self RULSIF.kernelBasis RULSIF.random]. fold n. fold m.
  unfold numpy.take_columns, numpy.r_. rewrite Nat.sub_0_r.
  assert (Hm : (m <= n)%nat) by (unfold m; lia).
  rewrite forallb_ltb_incl by (intros x Hx; apply in_seq in Hx; lia).
  eexists. split; [reflexivity|]. cbn [shape0 shape1 item].
  rewrite length_seq. repeat split; try assumption.
  intros i j Hj. now rewrite nth_seq_0.
Qed.

Lemma slice_to_firstn {A : Type} (v : list A) (k : Z) :
  exists c, slice_to v k = firstn c v /\
            c = if (k <? 0)%Z then (length v - Z.to_nat (- k))%nat else Z.to_nat k.
Proof. unfold slice_to. destruct (k <? 0)%Z; eauto. Qed.

Lemma firstn_NoDup {A : Type} (n : nat) (l : list A) : NoDup l -> NoDup (firstn n l).
Proof.
  intros H. rewrite <- (firstn_skipn n l) in H. now apply NoDup_app_remove_r in H.
Qed.

Lemma firstn_In {A : Type} (n : nat) (l : list A) (x : A) : In x (firstn n l) -> In x l.
Proof. intros H. rewrite <- (firstn_skipn n l). apply in_or_app. now left. Qed.

(** [generateRandomGaussianCenters] never raises in an instance with a basis
    count [k]: it draws one permutation, sets the basis count to
    [min(k, n)], and returns pairwise distinct columns of the reference
    samples, [min(k, n)] of them, or all but the last [-k] when [k] is
    negative. *)
Theorem generateRandomGaussianCenters_distinct (referenceSamples : ndarray)
        (alpha : float) (sigma lambda : pyfloat) (k folds : Z) (centers0 : option ndarray)
        (g : RandomState) :
  let n := shape1 referenceSamples in
  let m := Z.min k (Z.of_nat n) in
  exists centers idxs,
    generateRandomGaussianCenters referenceSamples
      (RULSIF.mkWorld (RULSIF.new alpha sigma lambda (Some k) folds centers0) g)
    = (Ok centers,
       RULSIF.mkWorld (RULSIF.new alpha sigma lambda (Some m) folds centers0)
                      (snd (random_permutation n g))) /\
    NoDup idxs /\ (forall c, In c idxs -> (c < n)%nat) /\
    length idxs = (if (m <? 0)%Z then n - Z.to_nat (- m) else Z.to_nat m)%nat /\
    shape0 centers = shape0 referenceSamples /\
    shape1 centers = length idxs /\
    forall i j, (j < length idxs)%nat ->
                item centers i j = item referenceSamples i (nth j idxs 0%nat).
Proof.
  intros n m.
  unfold generateRandomGaussianCenters, mbind, get, lift, RULSIF.modify_self,
    RULSIF.permutation.
  cbn [RULSIF.self RULSIF.kernelBasis RULSIF.random]. fold n.
  pose proof (random_permutation_spec n g) as Hperm.
  destruct (random_permutation n g) as [perm g'] eqn:Eperm.
  cbn [fst snd] in *. cbn [RULSIF.self RULSIF.kernelBasis RULSIF.random]. fold m.
  assert (Hlen : length perm = n) by (rewrite (Permutation_length Hperm); apply length_seq).
  assert (Hnodup : NoDup perm)
    by (apply (Permutation_NoDup (Permutation_sym Hperm)), seq_NoDup).
  assert (Hrange : forall c, In c perm -> (c < n)%nat).
  { intros c Hc. apply (Permutation_in _ Hperm) in Hc. apply in_seq in Hc. lia. }
  destruct (slice_to_firstn perm m) as (c & Hslice & Hc).
  unfold numpy.take_columns. rewrite Hslice.
  rewrite forallb_ltb_incl by (intros x Hx; apply Hrange; eapply firstn_In; eauto).
  exists (mkArray (shape0 referenceSamples) (length (firstn c perm))
                  (fun i j => item referenceSamples i (nth j (firstn c perm) 0%nat))),
    (firstn c perm).
  split; [reflexivity|]. split; [now apply firstn_NoDup|].
  split; [intros x Hx; apply Hrange; eapply firstn_In; eauto|].
  split.
  - rewrite length_firstn, Hlen, Hc. unfold m. destruct (Z.ltb_spec (Z.min k (Z.of_nat n)) 0); lia.
  - cbn [shape0 shape1 item]. repeat split.
Qed.

End StrategiesFacts.


(** theta_hat *)
(** ** The regularized system *)

Section Theta.
Context {ext : Externals}.

(** For a square [H_hat] of the basis count [k], [theta_hat] hands the
    solver the matrix with [lambda] added on the diagonal of [H_hat], and
    the vector [h_hat]; its result is the solver's. *)
Theorem theta_hat_system (H_hat : ndarray) (h_hat : list float) (lam : float) (k : Z) :
  (0 <= k)%Z -> shape0 H_hat = Z.to_nat k -> shape1 H_hat = Z.to_nat k ->
  exists A,
    AlphaRelativeDensityRatioEstimator.theta_hat H_hat h_hat (Some lam) (Some k)
    = linalg_solve A h_hat /\
    shape0 A = Z.to_nat k /\ shape1 A = Z.to_nat k /\
    forall i j, (i < Z.to_nat k)%nat -> (j < Z.to_nat k)%nat ->
                item A i j = item H_hat i j + lam * (if Nat.eqb i j then 1 else 0).
Proof.
  intros Hk H0 H1. unfold AlphaRelativeDensityRatioEstimator.theta_hat, numpy.eye.
  destruct (Z.ltb_spec k 0); [lia|]. cbn [bind].
  unfold numpy.add, numpy.broadcast, numpy.scale. cbn [shape0 shape1].
  rewrite H0, H1, !broadcast_dim_same. cbn [bind].
  eexists. split; [reflexivity|]. cbn [shape0 shape1 item]. repeat split.
  intros i j Hi Hj. now rewrite !stretch_in_range.
Qed.

(** [theta_hat] raises a type error when the basis count is [None], a value
    error when it is negative, and a type error when lambda is [None]. *)
Theorem theta_hat_errors (H_hat : ndarray) (h_hat : list float) (lam : pyfloat)
        (p : positive) (n : nat) :
  AlphaRelativeDensityRatioEstimator.theta_hat H_hat h_hat lam None = Raise TypeError /\
  AlphaRelativeDensityRatioEstimator.theta_hat H_hat h_hat lam (Some (Z.neg p))
  = Raise ValueError /\
  AlphaRelativeDensityRatioEstimator.theta_hat H_hat h_hat None (Some (Z.of_nat n))
  = Raise TypeError.
Proof.
  unfold AlphaRelativeDensityRatioEstimator.theta_hat, numpy.eye. repeat split.
  destruct (Z.ltb_spec (Z.of_nat n) 0); [lia | reflexivity].
Qed.

End Theta.

Lemma theta_hat_system_witness :
  exists A,
    AlphaRelativeDensityRatioEstimator.theta_hat (ext := reference_externals)
      (of_rows [[2; 1]; [1; 3]]) [3; 5] (Some 0.5) (Some 2%Z)
    = elimination_solve A [3; 5] /\
    shape0 A = 2%nat /\ shape1 A = 2%nat /\
    forall i j, (i < 2)%nat -> (j < 2)%nat ->
                item A i j = item (of_rows [[2; 1]; [1; 3]]) i j
                             + 0.5 * (if Nat.eqb i j then 1 else 0).
Proof.
  apply (@theta_hat_system reference_externals (of_rows [[2; 1]; [1; 3]]) [3; 5] 0.5 2%Z).
  - lia.
  - reflexivity.
  - reflexivity.
Defined.

Lemma selectOptimal_global_minimum_witness :
  let scores := of_rows [[3; 2; 2; 5; 4];
                         [1; 0.5; 3; 0.5; 2];
                         [2; 0.5; 0.5; 1; 1];
                         [4; 4; 4; 4; 4];
                         [0.5; 9; 9; 9; 9]] in
  let sigmaWidths := [0.6; 0.8; 1; 1.2; 1.4] in
  exists sigmaIdx lambdaIdx,
    nth_error sigmaWidths sigmaIdx = Some 0.8 /\
    nth_error RULSIF.generateRegularizationParams lambdaIdx = Some 0.01 /\
    (sigmaIdx < shape0 scores)%nat /\
    (lambdaIdx < shape1 scores)%nat /\
    (forall i j, (i < shape0 scores)%nat -> (j < shape1 scores)%nat ->
                 np_le (item scores sigmaIdx lambdaIdx) (item scores i j)) /\
    (forall i j, (i < shape0 scores)%nat -> (j < shape1 scores)%nat ->
                 (i < sigmaIdx \/ (i = sigmaIdx /\ j < lambdaIdx))%nat ->
                 ~ np_le (item scores i j) (item scores sigmaIdx lambdaIdx)).
Proof.
  intros scores sigmaWidths.
  apply (selectOptimal_global_minimum scores sigmaWidths
           RULSIF.generateRegularizationParams 0.8 0.01).
  vm_compute. reflexivity.
Defined.

Lemma selectOptimal_returns_witness :
  exists optimalSigma optimalLambda,
    RULSIF.selectOptimal (of_rows [[3; 2]; [1; 0.5]; [2; 0.5]]) [0.6; 0.8; 1; 1.2; 1.4]
                         RULSIF.generateRegularizationParams
    = Ok (optimalSigma, optimalLambda).
Proof.
  apply selectOptimal_returns; simpl; lia.
Defined.

Lemma selectOptimal_empty_witness :
  RULSIF.selectOptimal (mkArray 0 5 (fun _ _ => 0)) [0.6; 0.8; 1; 1.2; 1.4]
                       RULSIF.generateRegularizationParams
  = Raise ValueError.
Proof.
  apply selectOptimal_empty. left. reflexivity.
Defined.


Lemma cv_split_every_fold_witness :
  exists k, (k < 7)%nat /\ nth k (RULSIF.cv_split 7 3) 0%Z = 2%Z.
Proof.
  apply (cv_split_every_fold 7 3 2); lia.
Defined.

Lemma distances0_one_dimension_witness :
  let sampleSet := of_rows [[0]; [2]; [3]] in
  let n := shape0 sampleSet in
  let x := fun i => item sampleSet i 0%nat in
  let G := fold_left add (map (fun k => x k * x k) (seq 1 (n - 1))) (1 + x 0%nat * x 0%nat) in
  exists D,
    RULSIF.distances0 sampleSet = Ok D /\
    shape0 D = n /\ shape1 D = n /\
    forall i j, (i < n)%nat -> (j < n)%nat ->
                item D i j = G + G - 2 * (0 + x i * x j).
Proof.
  apply (distances0_one_dimension (of_rows [[0]; [2]; [3]])).
  - reflexivity.
  - simpl. lia.
Defined.
